(** * streamlit_app.py: the prediction page and the subgraph renderer

    A shallow embedding of [src/streamlit_app.py]: [load_models],
    [visualize_subgraph] and [main].  The page is a sequential script whose
    only state is what it shows, logs, writes to disk and the attribute
    dictionaries of the graphs it is handed; every collaborator outside the
    file (streamlit widgets, the model manager, pandas tables, pyvis, the file
    system) is an oracle of the environment that may return or raise. *)

From Stdlib Require Import ZArith String Ascii DecimalString.
From Stdlib Require Import Floats.
From stdpp Require Import gmap strings list fin_maps.

Local Open Scope Z_scope.

(** ** Python values *)

(** The scalar values the script handles.  Floats are IEEE binary64 values in
    the Standard Library's specification format (sign, mantissa, exponent). *)
Inductive PyVal : Type :=
  | PyNone
  | PyBool (b : bool)
  | PyInt (z : Z)
  | PyFloat (f : spec_float)
  | PyStr (s : string).

#[global] Instance spec_float_eq_dec : EqDecision spec_float.
Proof. solve_decision. Defined.

#[global] Instance PyVal_eq_dec : EqDecision PyVal.
Proof. solve_decision. Defined.

(** An attribute dictionary ([dict] with string keys). *)
Abbreviation Attrs := (gmap string PyVal).

(** [bool(v)]: Python truthiness. *)
Definition truthy (v : PyVal) : bool :=
  match v with
  | PyNone => false
  | PyBool b => b
  | PyInt z => negb (z =? 0)
  | PyFloat (S754_zero _) => false
  | PyFloat _ => true
  | PyStr s => negb (String.eqb s "")
  end.

(** [f == z] for a float and an int: Python compares the exact values. *)
Definition float_eq_int (f : spec_float) (z : Z) : bool :=
  match f with
  | S754_zero _ => z =? 0
  | S754_finite s m e =>
      let v := if s then Z.neg m else Z.pos m in
      if 0 <=? e then v * 2 ^ e =? z else v =? z * 2 ^ (- e)
  | _ => false
  end.

(** [v == z] for an int literal [z] ([bool] is a subclass of [int]). *)
Definition py_eq_int (v : PyVal) (z : Z) : bool :=
  match v with
  | PyBool b => (if b then 1 else 0) =? z
  | PyInt x => x =? z
  | PyFloat f => float_eq_int f z
  | _ => false
  end.

(** [v == s] for a string literal [s]: only a string equals a string. *)
Definition py_eq_str (v : PyVal) (s : string) : bool :=
  match v with
  | PyStr x => String.eqb x s
  | _ => false
  end.

(** ** Exceptions *)

Inductive ExcClass : Type :=
  | FileNotFoundError
  | ValueError
  | KeyError
  | TypeError
  | OverflowError
  | OSError
  | RuntimeError
  | KeyboardInterrupt.

#[global] Instance ExcClass_eq_dec : EqDecision ExcClass.
Proof. solve_decision. Defined.

(** A raised exception: its class and [str(e)]. *)
Record PyExc : Type := mkExc {
  exc_class : ExcClass;
  exc_str : string
}.

(** [isinstance(e, Exception)]: everything but the [BaseException]-only
    classes. *)
Definition is_Exception (e : PyExc) : bool :=
  match exc_class e with
  | KeyboardInterrupt => false
  | _ => true
  end.

Definition is_FileNotFoundError (e : PyExc) : bool :=
  bool_decide (exc_class e = FileNotFoundError).

Definition is_ValueError (e : PyExc) : bool :=
  bool_decide (exc_class e = ValueError).

Inductive Result (A : Type) : Type :=
  | Ok (a : A)
  | Raise (e : PyExc).
Arguments Ok {A} a.
Arguments Raise {A} e.

(** The line feed of ["\n"]. *)
Definition newline : string := String (ascii_of_nat 10) EmptyString.

(** ** Formatting a number with [:.2f] *)

Definition digits (n : Z) : string := NilZero.string_of_uint (N.to_uint (Z.to_N n)).

Definition two_digits (n : Z) : string :=
  if n <? 10 then "0" +:+ digits n else digits n.

(** [round(n / d)] to the nearest integer, ties to even ([0 < d]). *)
Definition round_half_even (n d : Z) : Z :=
  let q := n / d in
  let r := n mod d in
  if (d <? 2 * r) || ((2 * r =? d) && Z.odd q) then q + 1 else q.

(** The hundredths of [m * 2^e], correctly rounded. *)
Definition hundredths (m : positive) (e : Z) : Z :=
  if 0 <=? e then Z.pos m * 100 * 2 ^ e
  else round_half_even (Z.pos m * 100) (2 ^ (- e)).

(** [format(f, '.2f')] for a float: the exact binary value rounded to two
    decimals, ties to even, the sign kept. *)
Definition format_float_2f (f : spec_float) : string :=
  match f with
  | S754_zero s => (if s then "-" else "") +:+ "0.00"
  | S754_infinity s => (if s then "-" else "") +:+ "inf"
  | S754_nan => "nan"
  | S754_finite s m e =>
      let h := hundredths m e in
      (if s then "-" else "") +:+ digits (h / 100) +:+ "." +:+ two_digits (h mod 100)
  end.

(** [float(z)]: the nearest binary64, or [OverflowError]. *)
Definition float_of_int (z : Z) : Result spec_float :=
  match binary_normalize 53 1024 z 0 false with
  | S754_infinity _ =>
      Raise (mkExc OverflowError "int too large to convert to float")
  | f => Ok f
  end.

(** [f"{v:.2f}"]: floats and ints format, [None] and strings raise. *)
Definition format_2f (v : PyVal) : Result string :=
  match v with
  | PyFloat f => Ok (format_float_2f f)
  | PyInt z =>
      match float_of_int z with
      | Ok f => Ok (format_float_2f f)
      | Raise e => Raise e
      end
  | PyBool b => Ok (if b then "1.00" else "0.00")
  | PyNone =>
      Raise (mkExc TypeError "unsupported format string passed to NoneType.__format__")
  | PyStr _ =>
      Raise (mkExc ValueError "Unknown format code 'f' for object of type 'str'")
  end.

(** The binary64 value the literal [28.4] denotes. *)
Definition float_28_4 : spec_float := S754_finite false 7993889338582630 (-48).

(** ** The world the script runs in *)

(** The streamlit calls of the file. *)
Inductive StWidget : Type :=
  | st_title | st_selectbox | st_text_input | st_button | st_header
  | st_subheader | st_write | st_info | st_warning | st_error.

(** The collaborators outside the file, by the name the file calls them. *)
Inductive Collaborator : Type :=
  | c_ModelManager | c_load_models | c_build_knowledge_graph
  | c_get_all_players | c_get_player_id | c_get_team_data
  | c_prepare_input | c_predict_regression | c_predict_classification
  | c_extract_context_subgraph | c_get_player_team | c_generate_explanation
  | c_copy | c_Network | c_from_nx | c_NamedTemporaryFile | c_save_graph
  | c_open_read | c_os_remove.

(** What an observer of one run sees, in order. *)
Inductive Event : Type :=
  | EvSt (w : StWidget) (text : string)
  | EvHtml (html : string) (height : Z)
  | EvLogError (msg : string)
  | EvCall (c : Collaborator).

#[global] Instance StWidget_eq_dec : EqDecision StWidget.
Proof. solve_decision. Defined.
#[global] Instance Collaborator_eq_dec : EqDecision Collaborator.
Proof. solve_decision. Defined.
#[global] Instance Event_eq_dec : EqDecision Event.
Proof. solve_decision. Defined.

(** The heap holds the attribute dictionaries (a [dict] object is its
    address), the file system maps a path to its content, the trace grows at
    its end. *)
Record World : Type := mkWorld {
  w_heap : list Attrs;
  w_files : gmap string string;
  w_trace : list Event
}.

Definition set_heap (h : list Attrs) (w : World) : World :=
  mkWorld h (w_files w) (w_trace w).
Definition set_files (fs : gmap string string) (w : World) : World :=
  mkWorld (w_heap w) fs (w_trace w).
Definition add_event (ev : Event) (w : World) : World :=
  mkWorld (w_heap w) (w_files w) (w_trace w ++ [ev]).

(** A computation: runs in a world, returns or raises, leaves a world. *)
Definition M (A : Type) : Type := World → Result A * World.

#[global] Instance M_ret : MRet M := λ A a w, (Ok a, w).
#[global] Instance M_bind : MBind M := λ A B f m w,
  match m w with
  | (Ok a, w') => f a w'
  | (Raise e, w') => (Raise e, w')
  end.

Definition raise {A} (e : PyExc) : M A := λ w, (Raise e, w).
Definition lift {A} (r : Result A) : M A := λ w, (r, w).
Definition emit (ev : Event) : M unit := λ w, (Ok tt, add_event ev w).
Definition st (k : StWidget) (text : string) : M unit := emit (EvSt k text).
Definition logging_error (msg : string) : M unit := emit (EvLogError msg).

(** A call of a collaborator: it is seen, then returns or raises. *)
Definition call {A} (c : Collaborator) (r : Result A) : M A :=
  emit (EvCall c);; lift r.

(** [except] clauses, tried in order: the class test and the handler. *)
Definition Clauses (A : Type) : Type := list ((PyExc → bool) * (PyExc → M A)).

Fixpoint first_clause {A} (cs : Clauses A) (e : PyExc) : option (M A) :=
  match cs with
  | [] => None
  | (test, handler) :: cs' => if test e then Some (handler e) else first_clause cs' e
  end.

(** [try: body] followed by the [except] clauses [cs]. *)
Definition try_except {A} (body : M A) (cs : Clauses A) : M A := λ w,
  match body w with
  | (Ok a, w') => (Ok a, w')
  | (Raise e, w') =>
      match first_clause cs e with
      | Some handler => handler w'
      | None => (Raise e, w')
      end
  end.

(** [for x in xs: body x]. *)
Fixpoint for_each {A} (xs : list A) (body : A → M unit) : M unit :=
  match xs with
  | [] => mret tt
  | x :: xs' => body x;; for_each xs' body
  end.

(** A loop that threads a value through its body. *)
Fixpoint fold_each {A S} (xs : list A) (body : S → A → M S) (s : S) : M S :=
  match xs with
  | [] => mret s
  | x :: xs' => s' ← body s x; fold_each xs' body s'
  end.

(** ** Dictionaries on the heap *)

Definition deref (h : list Attrs) (r : nat) : Attrs := default ∅ (h !! r).

(** [d = {...}]: a new dictionary object. *)
Definition alloc (d : Attrs) : M nat := λ w,
  (Ok (length (w_heap w)), set_heap (w_heap w ++ [d]) w).

Definition get_dict (r : nat) : M Attrs := λ w, (Ok (deref (w_heap w) r), w).

(** [d[k]]. *)
Definition dict_getitem (r : nat) (k : string) : M PyVal :=
  d ← get_dict r;
  match d !! k with
  | Some v => mret v
  | None => raise (mkExc KeyError ("'" +:+ k +:+ "'"))
  end.

(** [d[k] = v]. *)
Definition dict_setitem (r : nat) (k : string) (v : PyVal) : M unit := λ w,
  (Ok tt, set_heap (<[r := <[k := v]> (deref (w_heap w) r)]> (w_heap w)) w).

(** ** networkx graphs *)

(** A node identifier: an int or a string. *)
Inductive NodeId : Type :=
  | NInt (z : Z)
  | NStr (s : string).

#[global] Instance NodeId_eq_dec : EqDecision NodeId.
Proof. solve_decision. Defined.

Definition val_of_node (n : NodeId) : PyVal :=
  match n with
  | NInt z => PyInt z
  | NStr s => PyStr s
  end.

(** A directed graph as networkx keeps it: [_node] maps a node to its
    attribute dictionary, [_adj] maps a node to its successors and the edge's
    attribute dictionary; both are insertion-ordered dictionaries, the
    attribute dictionaries are objects on the heap. *)
Record Graph : Type := mkGraph {
  g_node : list (NodeId * nat);
  g_adj : list (NodeId * list (NodeId * nat))
}.

Definition assoc {V} (n : NodeId) (l : list (NodeId * V)) : option V :=
  snd <$> find (λ p, bool_decide (p.1 = n)) l.

Definition number_of_nodes (g : Graph) : nat := length (g_node g).

(** [G.nodes(data=True)]. *)
Definition nodes_data (g : Graph) : list (NodeId * nat) := g_node g.

(** [G.edges(data=True)]. *)
Definition edges_data (g : Graph) : list (NodeId * NodeId * nat) :=
  flat_map (λ un, (λ vr, (un.1, vr.1, vr.2)) <$> un.2) (g_adj g).

(** [repr(n)], the text of a [KeyError] on a node. *)
Definition repr_node (n : NodeId) : string :=
  match n with
  | NInt z => (if z <? 0 then "-" else "") +:+ digits (Z.abs z)
  | NStr s => "'" +:+ s +:+ "'"
  end.

(** [G.nodes[n]]. *)
Definition nodes_getitem (g : Graph) (n : NodeId) : M nat :=
  match assoc n (g_node g) with
  | Some r => mret r
  | None => raise (mkExc KeyError (repr_node n))
  end.

(** [d.copy()] of every dictionary of an association list, in order. *)
Fixpoint copy_dicts {K} (l : list (K * nat)) : M (list (K * nat)) :=
  match l with
  | [] => mret []
  | (k, r) :: l' =>
      d ← get_dict r;
      r' ← alloc d;
      rest ← copy_dicts l';
      mret ((k, r') :: rest)
  end.

Fixpoint copy_adj (a : list (NodeId * list (NodeId * nat)))
  : M (list (NodeId * list (NodeId * nat))) :=
  match a with
  | [] => mret []
  | (u, nbrs) :: a' =>
      nbrs' ← copy_dicts nbrs;
      rest ← copy_adj a';
      mret ((u, nbrs') :: rest)
  end.

(** [G.copy()]: the same nodes and edges, every attribute dictionary a new
    object with the same items. *)
Definition nx_copy (g : Graph) : M Graph :=
  emit (EvCall c_copy);;
  nodes ← copy_dicts (g_node g);
  adj ← copy_adj (g_adj g);
  mret (mkGraph nodes adj).

(** The invariant of a networkx graph: node keys are unique, every node of
    [_adj] and every successor is a node of [_node]. *)
Definition nx_closed (g : Graph) : Prop :=
  Forall (λ un, un.1 ∈ (g_node g).*1 ∧ Forall (λ vr, vr.1 ∈ (g_node g).*1) un.2)
         (g_adj g).

Definition nx_wf (g : Graph) : Prop := NoDup (g_node g).*1 ∧ nx_closed g.

(** The dictionaries of a graph. *)
Definition graph_refs (g : Graph) : list nat :=
  (g_node g).*2 ++ flat_map (λ un, un.2.*2) (g_adj g).

(** Every dictionary of the graph is an object of the heap. *)
Definition refs_valid (g : Graph) (h : list Attrs) : Prop :=
  Forall (λ r, (r < length h)%nat) (graph_refs g).

(** *** Building a graph *)

(** [d.update(attr)]. *)
Definition dict_update (r : nat) (attr : Attrs) : M unit := λ w,
  (Ok tt, set_heap (<[r := attr ∪ deref (w_heap w) r]> (w_heap w)) w).

(** [G.add_node(n, **attr)]. *)
Definition nx_add_node (n : NodeId) (attr : Attrs) (g : Graph) : M Graph :=
  match assoc n (g_node g) with
  | Some r => dict_update r attr;; mret g
  | None =>
      r ← alloc attr;
      mret (mkGraph (g_node g ++ [(n, r)]) (g_adj g ++ [(n, [])]))
  end.

(** [_adj[u][v] = r]. *)
Definition add_successor (u v : NodeId) (r : nat)
    (a : list (NodeId * list (NodeId * nat))) : list (NodeId * list (NodeId * nat)) :=
  (λ un, if bool_decide (un.1 = u) then (un.1, un.2 ++ [(v, r)]) else un) <$> a.

(** [G.add_edge(u, v, **attr)]: the endpoints become nodes when they are
    not, then the edge's dictionary is updated or created. *)
Definition nx_add_edge (u v : NodeId) (attr : Attrs) (g : Graph) : M Graph :=
  g ← (if bool_decide (is_Some (assoc u (g_node g))) then mret g else nx_add_node u ∅ g);
  g ← (if bool_decide (is_Some (assoc v (g_node g))) then mret g else nx_add_node v ∅ g);
  match assoc u (g_adj g) ≫= assoc v with
  | Some r => dict_update r attr;; mret g
  | None =>
      r ← alloc attr;
      mret (mkGraph (g_node g) (add_successor u v r (g_adj g)))
  end.

(** ** pyvis networks *)

(** A [pyvis.network.Network]: the options dictionary of every node
    ([node_map]) and the edges. *)
Record Network : Type := mkNetwork {
  net_node_map : list (NodeId * Attrs);
  net_edges : list (NodeId * NodeId * Attrs)
}.

(** [net.get_node(n)]. *)
Definition get_node (net : Network) (n : NodeId) : Result Attrs :=
  match assoc n (net_node_map net) with
  | Some o => Ok o
  | None => Raise (mkExc KeyError (repr_node n))
  end.

(** The options dictionary of [n] after [o[k] = v]. *)
Definition set_option (n : NodeId) (k : string) (v : PyVal) (net : Network) : Network :=
  mkNetwork
    ((λ p, if bool_decide (p.1 = n) then (p.1, <[k := v]> p.2) else p) <$> net_node_map net)
    (net_edges net).

(** [net.get_node(n)[k] = v]. *)
Definition get_node_setitem (net : Network) (n : NodeId) (k : string) (v : PyVal)
  : M Network :=
  match get_node net n with
  | Ok _ => mret (set_option n k v net)
  | Raise e => raise e
  end.

(** ** The collaborators *)

(** A pandas table, as far as the script looks at it. *)
Record DataFrame : Type := mkDataFrame {
  df_empty : bool;
  df_column_tolist : string → Result (list string)
}.

Record ModelManager : Type := mkModelManager {
  regressor_pipeline : nat;
  classifier_pipeline : nat;
  KG : Graph
}.

(** The relationship triples and the context handed to the explanation. *)
Record Relationship : Type := mkRelationship {
  rel_source : NodeId;
  rel_target : NodeId;
  rel_relation : PyVal
}.

Record ContextInfo : Type := mkContextInfo {
  ctx_Player : string;
  ctx_Player_Team : PyVal;
  ctx_Opponent : option string;
  ctx_Relationships : list Relationship
}.

Record PredictionResult : Type := mkPredictionResult {
  pr_points : PyVal;
  pr_exceeds_threshold : bool
}.

(** What the environment answers: the user's inputs, and for every
    collaborator whether it returns (and what) or raises. *)
Record Env : Type := mkEnv {
  env_season_index : nat;
  env_player_name : string;
  env_opponent_index : nat;
  env_predict_clicked : bool;
  env_ModelManager : string → Result ModelManager;
  env_mm_load_models : ModelManager → Result ModelManager;
  env_mm_build_knowledge_graph : ModelManager → Result ModelManager;
  env_get_all_players : string → Result DataFrame;
  env_get_player_id : string → DataFrame → Result PyVal;
  env_get_team_data : Result DataFrame;
  env_prepare_input : string → option string → string → Result nat;
  env_predict_regression : nat → nat → Result PyVal;
  env_predict_classification : nat → nat → Result PyVal;
  env_extract_context_subgraph :
    Graph → PyVal → option string → ModelManager → Result Graph;
  env_get_player_team : ModelManager → PyVal → Result PyVal;
  env_generate_explanation :
    ModelManager → string → option string → PredictionResult → ContextInfo →
    Result string;
  env_format_exc : PyExc → string;
  env_from_nx : Graph → list Attrs → Result Network * list Attrs;
  env_NamedTemporaryFile : gmap string string → string → Result string;
  env_save_graph : Network → string → Result string;
  env_read_error : string → option PyExc;
  env_remove_error : string → option PyExc;
  env_html_error : string → option PyExc
}.

(** [st.selectbox]: the option the user picked, the first one when nothing
    was picked, [None] when there is no option. *)
Definition selected (options : list string) (i : nat) : option string :=
  match options !! i with
  | Some o => Some o
  | None => head options
  end.

(** [str(x)] of an optional string. *)
Definition str_opt (o : option string) : string := default "None" o.

Section Script.

Context (env : Env).

(** *** [visualize_subgraph] *)

(** Lines 59-64, the body of the labelling loop. *)
Definition label_node (subgraph_copy : Graph) (nd : NodeId * nat) : M unit :=
  let '(node, data) := nd in
  d ← get_dict data;
  if bool_decide (is_Some (d !! "name")) then
    name ← dict_getitem data "name";
    r ← nodes_getitem subgraph_copy node;
    dict_setitem r "label" name
  else
    r ← nodes_getitem subgraph_copy node;
    dict_setitem r "label" (val_of_node node).

(** Lines 56-64: the working copy and its labels. *)
Definition labelled_copy (subgraph : Graph) : M Graph :=
  subgraph_copy ← nx_copy subgraph;
  for_each (nodes_data subgraph_copy) (label_node subgraph_copy);;
  mret subgraph_copy.

(** [net.from_nx(g)]: pyvis reads the graph and may write its dictionaries. *)
Definition from_nx (g : Graph) : M Network := λ w,
  let '(r, h) := env_from_nx env g (w_heap w) in
  (r, add_event (EvCall c_from_nx) (set_heap h w)).

(** Lines 72-90, the body of the styling loop. *)
Definition style_node (net : Network) (nd : NodeId * nat) : M Network :=
  let '(node, data) := nd in
  d ← get_dict data;
  let node_type := default PyNone (d !! "type") in
  if py_eq_str node_type "Player" then
    net ← get_node_setitem net node "color" (PyStr "blue");
    get_node_setitem net node "shape" (PyStr "ellipse")
  else if py_eq_str node_type "Team" then
    net ← get_node_setitem net node "color" (PyStr "green");
    get_node_setitem net node "shape" (PyStr "box")
  else if py_eq_str node_type "Game" then
    net ← get_node_setitem net node "color" (PyStr "red");
    get_node_setitem net node "shape" (PyStr "diamond")
  else if py_eq_str node_type "Opponent_Team" then
    net ← get_node_setitem net node "color" (PyStr "purple");
    get_node_setitem net node "shape" (PyStr "dot")
  else if py_eq_str node_type "Home_Away" then
    net ← get_node_setitem net node "color" (PyStr "orange");
    get_node_setitem net node "shape" (PyStr "triangle")
  else if py_eq_str node_type "Performance" then
    net ← get_node_setitem net node "color" (PyStr "yellow");
    get_node_setitem net node "shape" (PyStr "star")
  else mret net.

(** Lines 71-90. *)
Definition style_nodes (subgraph_copy : Graph) (net : Network) : M Network :=
  fold_each (nodes_data subgraph_copy) style_node net.

(** [tempfile.NamedTemporaryFile('w', delete=False, suffix=...)]: a new,
    empty file that stays when it is closed. *)
Definition NamedTemporaryFile (suffix : string) : M string := λ w,
  match env_NamedTemporaryFile env (w_files w) suffix with
  | Ok path =>
      (Ok path, add_event (EvCall c_NamedTemporaryFile)
                  (set_files (<[path := ""]> (w_files w)) w))
  | Raise e => (Raise e, add_event (EvCall c_NamedTemporaryFile) w)
  end.

(** [net.save_graph(path)]: the page is written to [path]. *)
Definition save_graph (net : Network) (path : string) : M unit := λ w,
  match env_save_graph env net path with
  | Ok html =>
      (Ok tt, add_event (EvCall c_save_graph)
                (set_files (<[path := html]> (w_files w)) w))
  | Raise e => (Raise e, add_event (EvCall c_save_graph) w)
  end.

(** [open(path, 'r')] and [f.read()]. *)
Definition open_read (path : string) : M string := λ w,
  let w' := add_event (EvCall c_open_read) w in
  match w_files w !! path with
  | None => (Raise (mkExc FileNotFoundError ("No such file or directory: '" +:+ path +:+ "'")), w')
  | Some content =>
      match env_read_error env path with
      | Some e => (Raise e, w')
      | None => (Ok content, w')
      end
  end.

(** [os.remove(path)]. *)
Definition os_remove (path : string) : M unit := λ w,
  let w' := add_event (EvCall c_os_remove) w in
  match w_files w !! path with
  | None => (Raise (mkExc FileNotFoundError ("No such file or directory: '" +:+ path +:+ "'")), w')
  | Some _ =>
      match env_remove_error env path with
      | Some e => (Raise e, w')
      | None => (Ok tt, set_files (delete path (w_files w')) w')
      end
  end.

(** [components.html(html, height=...)]. *)
Definition components_html (html : string) (height : Z) : M unit :=
  match env_html_error env html with
  | Some e => raise e
  | None => emit (EvHtml html height)
  end.

(** Lines 54-105, the body of the [try]. *)
Definition render (subgraph : Graph) : M unit :=
  subgraph_copy ← labelled_copy subgraph;
  net ← (emit (EvCall c_Network);; from_nx subgraph_copy);
  net ← style_nodes subgraph_copy net;
  tmp_file_path ← NamedTemporaryFile ".html";
  save_graph net tmp_file_path;;
  html ← open_read tmp_file_path;
  os_remove tmp_file_path;;
  components_html html 550.

(** Lines 106-109, the handler. *)
Definition render_failed (e : PyExc) : M unit :=
  logging_error ("Error visualizing subgraph: " +:+ exc_str e +:+ newline
                 +:+ env_format_exc env e);;
  st st_error "Error visualizing the Knowledge Graph subgraph.".

Definition visualize_subgraph (subgraph : Graph) : M unit :=
  if bool_decide (number_of_nodes subgraph = 0%nat) then
    st st_warning "No subgraph available to display."
  else
    try_except (render subgraph) [(is_Exception, render_failed)].

(** *** [load_models] *)

(** Lines 30-40; the cache of [st.cache_resource] is not modelled, every run
    calls the body. *)
Definition load_models (season : string) : M ModelManager :=
  try_except
    (model_manager ← call c_ModelManager (env_ModelManager env season);
     model_manager ← call c_load_models (env_mm_load_models env model_manager);
     model_manager ← call c_build_knowledge_graph
                       (env_mm_build_knowledge_graph env model_manager);
     mret model_manager)
    [(is_FileNotFoundError,
      λ e, logging_error ("Model file missing: " +:+ exc_str e);; raise e);
     (is_Exception,
      λ e, logging_error ("Unexpected error loading models: " +:+ exc_str e);; raise e)].

(** *** [main] *)

(** Lines 180-187, the comprehension over [subgraph.edges(data=True)]. *)
Fixpoint relationships (edges : list (NodeId * NodeId * nat)) : M (list Relationship) :=
  match edges with
  | [] => mret []
  | (u, v, d) :: edges' =>
      relation ← dict_getitem d "relation";
      rest ← relationships edges';
      mret (mkRelationship u v relation :: rest)
  end.

(** Line 178, the value of ['Player_Team']. *)
Definition player_team_or_unknown (player_team_abbr : PyVal) : PyVal :=
  if truthy player_team_abbr then player_team_abbr else PyStr "Unknown".

(** Lines 176-188. *)
Definition build_context_info (player_name : string) (player_team_abbr : PyVal)
    (opponent : option string) (subgraph : Graph) : M ContextInfo :=
  rels ← relationships (edges_data subgraph);
  mret (mkContextInfo player_name (player_team_or_unknown player_team_abbr)
          opponent rels).

(** Lines 155-196, the body of the [try] under the Predict button. *)
Definition predict (model_manager : ModelManager) (season player_name : string)
    (player_id : PyVal) (opponent : option string) : M unit :=
  X ← call c_prepare_input (env_prepare_input env player_name opponent season);
  reg_pred ← call c_predict_regression
               (env_predict_regression env X (regressor_pipeline model_manager));
  clf_pred ← call c_predict_classification
               (env_predict_classification env X (classifier_pipeline model_manager));
  points ← lift (format_2f reg_pred);
  st st_write ("**Predicted Points:** " +:+ points);;
  st st_write ("**Will Exceed Threshold:** "
               +:+ (if py_eq_int clf_pred 1 then "Yes" else "No"));;
  let prediction_result := mkPredictionResult reg_pred (truthy clf_pred) in
  subgraph ← call c_extract_context_subgraph
               (env_extract_context_subgraph env (KG model_manager) player_id
                  opponent model_manager);
  player_team_abbr ← call c_get_player_team
                       (env_get_player_team env model_manager player_id);
  context_info ← build_context_info player_name player_team_abbr opponent subgraph;
  explanation ← call c_generate_explanation
                  (env_generate_explanation env model_manager player_name opponent
                     prediction_result context_info);
  st st_subheader "Prediction Explanation";;
  st st_write explanation;;
  st st_subheader "Knowledge Graph Subgraph";;
  visualize_subgraph subgraph.

(** Lines 198-203, the handlers of the Predict flow. *)
Definition predict_handlers : Clauses unit :=
  [(is_FileNotFoundError, λ e, st st_error ("Model file missing: " +:+ exc_str e));
   (is_ValueError, λ e, st st_error ("Input error: " +:+ exc_str e));
   (is_Exception, λ e, st st_error ("An unexpected error occurred: " +:+ exc_str e))].

(** Lines 129-205, the page once the models are loaded. *)
Definition page (model_manager : ModelManager) (season : string) : M unit :=
  st st_text_input "Enter Player Name (e.g., LeBron James)";;
  let player_name := env_player_name env in
  if negb (String.eqb player_name "") then
    players_df ← call c_get_all_players (env_get_all_players env season);
    if df_empty players_df then
      st st_error ("No player data available for season " +:+ season +:+ ".")
    else
      player_id ← call c_get_player_id (env_get_player_id env player_name players_df);
      if bool_decide (player_id = PyNone) then
        st st_error "Player not found. Please check the name and try again."
      else
        all_teams ← call c_get_team_data (env_get_team_data env);
        if df_empty all_teams then
          st st_error "No team data available."
        else
          team_abbreviations ← lift (df_column_tolist all_teams "abbreviation");
          st st_selectbox "Select Opponent Team";;
          let opponent := selected team_abbreviations (env_opponent_index env) in
          st st_header ("Predict Performance for " +:+ player_name +:+ " against "
                        +:+ str_opt opponent);;
          st st_button "Predict";;
          if env_predict_clicked env then
            try_except (predict model_manager season player_name player_id opponent)
              predict_handlers
          else mret tt
  else
    st st_info "Please enter a player's name to begin prediction.".

Definition main : M unit :=
  st st_title "NBA Player Performance Prediction";;
  st st_selectbox "Select Season:";;
  let season :=
    str_opt (selected ["2023-24"; "2022-23"; "2021-22"] (env_season_index env)) in
  loaded ← try_except (model_manager ← load_models season; mret (Some model_manager))
             [(is_FileNotFoundError,
               λ e, st st_error ("Model file missing: " +:+ exc_str e);; mret None);
              (is_Exception,
               λ e, st st_error ("An unexpected error occurred while loading models: "
                                 +:+ exc_str e);; mret None)];
  match loaded with
  | None => mret tt
  | Some model_manager => page model_manager season
  end.

End Script.

(** ** The vocabulary of the statements *)

(** Nothing the script does removes an event: a run appends. *)
Definition appends {A} (m : M A) : Prop :=
  ∀ w, ∃ evs, w_trace (m w).2 = w_trace w ++ evs.

(** The text streamlit shows for a Markdown string: the [**] of strong
    emphasis are markup, not text. *)
Fixpoint markdown_text (s : string) : string :=
  match s with
  | EmptyString => EmptyString
  | String c rest =>
      match rest with
      | String c' rest' =>
          if (Ascii.eqb c "*" && Ascii.eqb c' "*")%bool then markdown_text rest'
          else String c (markdown_text rest)
      | EmptyString => String c EmptyString
      end
  end.

(** [needle in text]. *)
Definition includes (needle text : string) : Prop :=
  ∃ before after, text = before +:+ needle +:+ after.

(** The calls and displays of the stages after entity resolution: feature
    building, prediction, extraction, explanation and rendering. *)
Definition pipeline_stage (c : Collaborator) : bool :=
  match c with
  | c_prepare_input | c_predict_regression | c_predict_classification
  | c_extract_context_subgraph | c_get_player_team | c_generate_explanation
  | c_copy | c_Network | c_from_nx | c_NamedTemporaryFile | c_save_graph
  | c_open_read | c_os_remove => true
  | _ => false
  end.

Definition pipeline_event (ev : Event) : bool :=
  match ev with
  | EvCall c => pipeline_stage c
  | EvHtml _ _ => true
  | _ => false
  end.

(** The dictionaries [copy_dicts] allocates, in order. *)
Fixpoint copied (h : list Attrs) (rs : list nat) : list Attrs :=
  match rs with
  | [] => []
  | r :: rs' => deref h r :: copied (h ++ [deref h r]) rs'
  end.

(** What the labelling loop makes of a node's dictionary. *)
Definition label_dict (n : NodeId) (d : Attrs) : Attrs :=
  <["label" := default (val_of_node n) (d !! "name")]> d.

(** The heap after the labelling loop over [l]. *)
Definition label_all (l : list (NodeId * nat)) (h : list Attrs) : list Attrs :=
  foldl (λ h nr, <[nr.2 := label_dict nr.1 (deref h nr.2)]> h) h l.

(** [m] leaves the first [n] objects of the heap as they are, and what it
    returns satisfies [post]. *)
Definition keeps (n : nat) {A} (m : M A) (post : A → Prop) : Prop :=
  ∀ w, (n ≤ length (w_heap w))%nat →
    (∀ r, (r < n)%nat → w_heap (m w).2 !! r = w_heap w !! r)
    ∧ (∀ a, (m w).1 = Ok a → post a).

(** pyvis writes only into the dictionaries of the graph it is given. *)
Definition from_nx_frame (env : Env) : Prop :=
  ∀ g h r, (r < length h)%nat → r ∉ graph_refs g →
    (env_from_nx env g h).2 !! r = h !! r.

(** The styling table of the specification: type, colour, shape. *)
Definition styling_table : list (string * (string * string)) :=
  [("Player", ("blue", "ellipse"));
   ("Team", ("green", "box"));
   ("Game", ("red", "diamond"));
   ("Opponent_Team", ("purple", "dot"));
   ("Home_Away", ("orange", "triangle"));
   ("Performance", ("yellow", "star"))].

(** The entry of the table for a node's ['type'], if it has one. *)
Definition encoding (node_type : option PyVal) : option (string * string) :=
  match node_type with
  | Some (PyStr t) => snd <$> find (λ row, String.eqb t row.1) styling_table
  | _ => None
  end.

(** The options of a node once its encoding is applied. *)
Definition styled (enc : option (string * string)) (options : Attrs) : Attrs :=
  match enc with
  | Some (color, shape) => <["shape" := PyStr shape]> (<["color" := PyStr color]> options)
  | None => options
  end.

Definition restyle (n : NodeId) (enc : option (string * string)) (net : Network) : Network :=
  match enc with
  | Some (color, shape) =>
      set_option n "shape" (PyStr shape) (set_option n "color" (PyStr color) net)
  | None => net
  end.

(** The network after the styling loop over [l]. *)
Definition restyle_all (l : list (NodeId * nat)) (h : list Attrs) (net : Network) : Network :=
  foldl (λ net nr, restyle nr.1 (encoding (deref h nr.2 !! "type")) net) net l.

Definition endpoints (rel : Relationship) : NodeId * NodeId :=
  (rel_source rel, rel_target rel).

Definition lacks_relation (h : list Attrs) (e : NodeId * NodeId * nat) : Prop :=
  deref h e.2 !! "relation" = None.

(** [m] leaves the file system alone. *)
Definition same_files {A} (m : M A) : Prop := ∀ w, w_files (m w).2 = w_files w.

(** ** A concrete run

    A small knowledge graph, a pyvis that behaves as the library does on it,
    and an environment in which every collaborator answers; the examples and
    the instances below run the script on them. *)

Module Demo.

Definition lebron : NodeId := NInt 2544.
Definition lakers : NodeId := NStr "LAL".
Definition celtics : NodeId := NStr "BOS".

(** The dictionaries of the subgraph: three nodes, two edges. *)
Definition heap : list Attrs :=
  [ {[ "name" := PyStr "LeBron James"; "type" := PyStr "Player" ]};
    {[ "name" := PyStr "Los Angeles Lakers"; "type" := PyStr "Team" ]};
    {[ "type" := PyStr "Arena" ]};
    {[ "relation" := PyStr "plays_for" ]};
    {[ "relation" := PyStr "faces" ]} ].

Definition subgraph : Graph :=
  mkGraph [(lebron, 0%nat); (lakers, 1%nat); (celtics, 2%nat)]
          [(lebron, [(lakers, 3%nat); (celtics, 4%nat)]); (lakers, []); (celtics, [])].

Definition empty_graph : Graph := mkGraph [] [].

Definition world : World := mkWorld heap ∅ [].

(** [add_node(n, **attrs)] of pyvis: the node's attributes with an id, a label
    and the default shape and colour where the attributes give none. *)
Definition node_options (n : NodeId) (d : Attrs) : Attrs :=
  let label := match d !! "label" with
               | Some l => if truthy l then l else val_of_node n
               | None => val_of_node n
               end in
  <["id" := val_of_node n]>
    (<["label" := label]>
       (<["shape" := default (PyStr "dot") (d !! "shape")]>
          (<["color" := default (PyStr "#97c2fc") (d !! "color")]> d))).

(** [from_nx]: every node gets a default size, written into the graph it
    was given, and becomes a node of the network. *)
Definition sized (d : Attrs) : Attrs :=
  match d !! "size" with
  | Some _ => d
  | None => <["size" := PyInt 10]> d
  end.

Definition from_nx (g : Graph) (h : list Attrs) : Result Network * list Attrs :=
  let h' := foldr (λ nr acc, <[nr.2 := sized (deref acc nr.2)]> acc) h (g_node g) in
  (Ok (mkNetwork ((λ nr, (nr.1, node_options nr.1 (deref h' nr.2))) <$> g_node g)
                 ((λ e, (e.1.1, e.1.2, deref h' e.2)) <$> edges_data g)),
   h').

(** The network pyvis builds from the subgraph. *)
Definition network : Network :=
  match (from_nx subgraph heap).1 with
  | Ok net => net
  | Raise _ => mkNetwork [] []
  end.

Definition frame : DataFrame :=
  mkDataFrame false (λ c, if String.eqb c "abbreviation" then Ok ["BOS"; "LAL"]
                          else Raise (mkExc KeyError ("'" +:+ c +:+ "'"))).

Definition empty_frame : DataFrame :=
  mkDataFrame true (λ c, Raise (mkExc KeyError ("'" +:+ c +:+ "'"))).

Definition manager : ModelManager := mkModelManager 1 2 subgraph.

(** An environment in which every collaborator answers, but for the ones
    the scenarios vary: the season picked, the model manager, the roster, the
    player found, the feature builder, the serialization, reading the file
    back and showing the page. *)
Definition scenario (season_index : nat) (built : Result ModelManager)
    (players : DataFrame) (player_id : PyVal) (prepared : Result nat)
    (saved : Result string) (read_error html_error : option PyExc) : Env := {|
  env_season_index := season_index;
  env_player_name := "LeBron James";
  env_opponent_index := 0;
  env_predict_clicked := true;
  env_ModelManager := λ _, built;
  env_mm_load_models := Ok;
  env_mm_build_knowledge_graph := Ok;
  env_get_all_players := λ _, Ok players;
  env_get_player_id := λ _ _, Ok player_id;
  env_get_team_data := Ok frame;
  env_prepare_input := λ _ _ _, prepared;
  env_predict_regression := λ _ _, Ok (PyFloat float_28_4);
  env_predict_classification := λ _ _, Ok (PyInt 1);
  env_extract_context_subgraph := λ _ _ _ _, Ok subgraph;
  env_get_player_team := λ _ _, Ok (PyStr "LAL");
  env_generate_explanation := λ _ _ _ _ _, Ok "He scores a lot.";
  env_format_exc := λ e, "Traceback (most recent call last): " +:+ exc_str e;
  env_from_nx := from_nx;
  env_NamedTemporaryFile := λ _ suffix, Ok ("/tmp/tmpgraph" +:+ suffix);
  env_save_graph := λ _ _, saved;
  env_read_error := λ _, read_error;
  env_remove_error := λ _, None;
  env_html_error := λ _, html_error
|}.

Definition page_html : string := "<html>graph</html>".

(** LeBron James against BOS in 2023-24: 28.4 points, above the threshold. *)
Definition env : Env := scenario 0 (Ok manager) frame (PyInt 2544) (Ok 0%nat) (Ok page_html) None None.

(** The same season without a roster. *)
Definition env_no_roster : Env :=
  scenario 1 (Ok manager) empty_frame (PyInt 2544) (Ok 0%nat) (Ok page_html) None None.

(** The feature builder rejects the input. *)
Definition env_input_error : Env :=
  scenario 0 (Ok manager) frame (PyInt 2544) (Raise (mkExc ValueError "Not enough games for LeBron James"))
    (Ok page_html) None None.

(** The page cannot be read back from the temporary file. *)
Definition env_read_fails : Env :=
  scenario 0 (Ok manager) frame (PyInt 2544) (Ok 0%nat) (Ok page_html)
    (Some (mkExc OSError "[Errno 5] Input/output error")) None.

(** pyvis cannot write the page. *)
Definition env_save_fails : Env :=
  scenario 0 (Ok manager) frame (PyInt 2544) (Ok 0%nat)
    (Raise (mkExc ValueError "'charmap' codec can't encode character"))
    None None.

(** Nobody of that name is on the roster. *)
Definition env_unknown_player : Env :=
  scenario 0 (Ok manager) frame PyNone (Ok 0%nat) (Ok page_html) None None.

(** The model files are not there. *)
Definition env_no_models : Env :=
  scenario 0 (Raise (mkExc FileNotFoundError "models/regressor.pkl")) frame (PyInt 2544)
    (Ok 0%nat) (Ok page_html) None None.

(** The HTML component fails. *)
Definition env_html_fails : Env :=
  scenario 0 (Ok manager) frame (PyInt 2544) (Ok 0%nat) (Ok page_html) None
    (Some (mkExc RuntimeError "component failed")).

End Demo.

(** ** More vocabulary: the stages of [main] *)

(** The season the user selected. *)
Definition selected_season (env : Env) : string :=
  str_opt (selected ["2023-24"; "2022-23"; "2021-22"] (env_season_index env)).

(** The world once [main] has shown its title and the season selector. *)
Definition after_season_selector (w : World) : World :=
  add_event (EvSt st_selectbox "Select Season:")
    (add_event (EvSt st_title "NBA Player Performance Prediction") w).


(** The steps of [load_models], in order. *)
Definition load_models_calls : list Event :=
  [EvCall c_ModelManager; EvCall c_load_models; EvCall c_build_knowledge_graph].

(** What [main] shows when the models do not load. *)
Definition loading_error_text (e : PyExc) : string :=
  (if is_FileNotFoundError e then "Model file missing: "
   else "An unexpected error occurred while loading models: ") +:+ exc_str e.

(** What the Predict flow shows for an exception of its body. *)
Definition predict_error_text (e : PyExc) : string :=
  (if is_FileNotFoundError e then "Model file missing: "
   else if is_ValueError e then "Input error: "
   else "An unexpected error occurred: ") +:+ exc_str e.

(** ** More runs

    Environments for the runs above that the first examples do not cover. *)

Module Cases.

(** The example environment with another name, button state, roster and
    team answers and classifier output. *)
Definition variant (player_name : string) (clicked : bool) (roster teams : Result DataFrame)
    (clf_pred : PyVal) : Env := {|
  env_season_index := env_season_index Demo.env;
  env_player_name := player_name;
  env_opponent_index := env_opponent_index Demo.env;
  env_predict_clicked := clicked;
  env_ModelManager := env_ModelManager Demo.env;
  env_mm_load_models := env_mm_load_models Demo.env;
  env_mm_build_knowledge_graph := env_mm_build_knowledge_graph Demo.env;
  env_get_all_players := λ _, roster;
  env_get_player_id := env_get_player_id Demo.env;
  env_get_team_data := teams;
  env_prepare_input := env_prepare_input Demo.env;
  env_predict_regression := env_predict_regression Demo.env;
  env_predict_classification := λ _ _, Ok clf_pred;
  env_extract_context_subgraph := env_extract_context_subgraph Demo.env;
  env_get_player_team := env_get_player_team Demo.env;
  env_generate_explanation := env_generate_explanation Demo.env;
  env_format_exc := env_format_exc Demo.env;
  env_from_nx := env_from_nx Demo.env;
  env_NamedTemporaryFile := env_NamedTemporaryFile Demo.env;
  env_save_graph := env_save_graph Demo.env;
  env_read_error := env_read_error Demo.env;
  env_remove_error := env_remove_error Demo.env;
  env_html_error := env_html_error Demo.env
|}.

(** The roster cannot be fetched. *)
Definition env_roster_unavailable : Env :=
  variant "LeBron James" true (Raise (mkExc RuntimeError "stats endpoint timed out"))
    (Ok Demo.frame) (PyInt 1).

(** The Predict button was not clicked. *)
Definition env_not_clicked : Env :=
  variant "LeBron James" false (Ok Demo.frame) (Ok Demo.frame) (PyInt 1).

(** There is no team table. *)
Definition env_no_teams : Env :=
  variant "LeBron James" true (Ok Demo.frame) (Ok Demo.empty_frame) (PyInt 1).

(** The model file is there but cannot be read. *)
Definition env_corrupt_model : Env :=
  Demo.scenario 0 (Raise (mkExc RuntimeError "invalid load key")) Demo.frame (PyInt 2544)
    (Ok 0%nat) (Ok Demo.page_html) None None.

(** A network that lacks the player. *)
Definition network_without_player : Network :=
  mkNetwork (drop 1 (net_node_map Demo.network)) (net_edges Demo.network).

End Cases.

(** ** Running computations *)

Lemma bind_run {A B} (m : M A) (f : A → M B) (w : World) :
  (m ≫= f) w = match m w with
               | (Ok a, w') => f a w'
               | (Raise e, w') => (Raise e, w')
               end.
Proof. reflexivity. Qed.

Lemma bind_ok {A B} (m : M A) (f : A → M B) (w w' : World) (a : A) :
  m w = (Ok a, w') → (m ≫= f) w = f a w'.
Proof. intros H. rewrite bind_run, H. reflexivity. Qed.

(** One step of a run whose first computation returns. *)
Ltac run_ok := erewrite bind_ok by reflexivity.

(** Unfolding the plumbing of a run: binds, events, handlers. *)
Ltac run :=
  cbv [mbind M_bind mret M_ret emit lift call st logging_error raise try_except
       first_clause add_event set_heap set_files];
  cbn [fst snd w_trace w_heap w_files].

(** *** Computations that only add to the trace *)

Create HintDb appends discriminated.

Lemma appends_ret {A} (a : A) : appends (mret a : M A).
Proof. intros w. exists []. simpl. by rewrite app_nil_r. Qed.

Lemma appends_raise {A} (e : PyExc) : appends (raise e : M A).
Proof. intros w. exists []. simpl. by rewrite app_nil_r. Qed.

Lemma appends_lift {A} (r : Result A) : appends (lift r).
Proof. intros w. exists []. simpl. by rewrite app_nil_r. Qed.

Lemma appends_emit (ev : Event) : appends (emit ev).
Proof. intros w. by exists [ev]. Qed.

Lemma appends_bind {A B} (m : M A) (f : A → M B) :
  appends m → (∀ a, appends (f a)) → appends (m ≫= f).
Proof.
  intros Hm Hf w. rewrite bind_run.
  destruct (Hm w) as [evs Hevs]. destruct (m w) as [[a|e] w1]; simpl in *.
  - destruct (Hf a w1) as [evs' Hevs']. exists (evs ++ evs').
    by rewrite Hevs', Hevs, app_assoc.
  - by exists evs.
Qed.

Lemma appends_try_except {A} (body : M A) (cs : Clauses A) :
  appends body → Forall (λ c, ∀ e, appends (c.2 e)) cs → appends (try_except body cs).
Proof.
  intros Hb Hcs w. unfold try_except.
  destruct (Hb w) as [evs Hevs]. destruct (body w) as [[a|e] w1]; simpl in *.
  - by exists evs.
  - assert (Hh : ∀ h, first_clause cs e = Some h → appends h).
    { clear -Hcs. induction Hcs as [|[test handler] cs Hc _ IH]; simpl; [done|].
      intros h. destruct (test e); [|by apply IH]. intros [= <-]. apply Hc. }
    destruct (first_clause cs e) as [h|] eqn:Hfc; simpl.
    + destruct (Hh h eq_refl w1) as [evs' Hevs']. exists (evs ++ evs').
      by rewrite Hevs', Hevs, app_assoc.
    + by exists evs.
Qed.

Lemma appends_for_each {A} (xs : list A) (body : A → M unit) :
  (∀ x, appends (body x)) → appends (for_each xs body).
Proof.
  intros Hb. induction xs as [|x xs IH]; simpl.
  - apply appends_ret.
  - apply appends_bind; [apply Hb | intros _; apply IH].
Qed.

Lemma appends_fold_each {A S} (xs : list A) (body : S → A → M S) (s : S) :
  (∀ s x, appends (body s x)) → appends (fold_each xs body s).
Proof.
  intros Hb. revert s. induction xs as [|x xs IH]; intros s; simpl.
  - apply appends_ret.
  - apply appends_bind; [apply Hb | intros s'; apply IH].
Qed.

(** A step that leaves the trace alone appends nothing. *)
Lemma appends_silent {A} (m : M A) :
  (∀ w, w_trace (m w).2 = w_trace w) → appends m.
Proof. intros H w. exists []. by rewrite H, app_nil_r. Qed.

#[global] Hint Resolve appends_ret appends_raise appends_lift appends_emit : appends.
#[global] Hint Extern 2 (appends (_ ≫= _)) => apply appends_bind; [|intros ?] : appends.
#[global] Hint Extern 2 (appends (for_each _ _)) => apply appends_for_each; intros ? : appends.
#[global] Hint Extern 2 (appends (fold_each _ _ _)) =>
  apply appends_fold_each; intros ? ? : appends.
#[global] Hint Extern 2 (appends (try_except _ _)) =>
  apply appends_try_except; [|repeat constructor; intros ?; simpl] : appends.
#[global] Hint Extern 5 (appends (match ?x with _ => _ end)) => destruct x : appends.

Ltac appends := eauto 40 with appends.

Lemma appends_call {A} (c : Collaborator) (r : Result A) : appends (call c r).
Proof. unfold call. appends. Qed.

Lemma appends_st (k : StWidget) (text : string) : appends (st k text).
Proof. apply appends_emit. Qed.

Lemma appends_logging_error (msg : string) : appends (logging_error msg).
Proof. apply appends_emit. Qed.

Lemma appends_alloc (d : Attrs) : appends (alloc d).
Proof. by apply appends_silent. Qed.

Lemma appends_get_dict (r : nat) : appends (get_dict r).
Proof. by apply appends_silent. Qed.

Lemma appends_dict_setitem (r : nat) (k : string) (v : PyVal) :
  appends (dict_setitem r k v).
Proof. by apply appends_silent. Qed.

#[global] Hint Resolve appends_call appends_st appends_logging_error appends_alloc
  appends_get_dict appends_dict_setitem : appends.

Lemma appends_dict_getitem (r : nat) (k : string) : appends (dict_getitem r k).
Proof. unfold dict_getitem. appends. Qed.

Lemma appends_nodes_getitem (g : Graph) (n : NodeId) : appends (nodes_getitem g n).
Proof. unfold nodes_getitem. appends. Qed.

#[global] Hint Resolve appends_dict_getitem appends_nodes_getitem : appends.

Lemma appends_copy_dicts {K} (l : list (K * nat)) : appends (copy_dicts l).
Proof. induction l as [|[k r] l IH]; simpl; appends. Qed.

#[global] Hint Resolve appends_copy_dicts : appends.

Lemma appends_copy_adj a : appends (copy_adj a).
Proof. induction a as [|[u nbrs] a IH]; simpl; appends. Qed.

#[global] Hint Resolve appends_copy_adj : appends.

Lemma appends_nx_copy (g : Graph) : appends (nx_copy g).
Proof. unfold nx_copy. appends. Qed.

#[global] Hint Resolve appends_nx_copy : appends.

Lemma appends_relationships edges : appends (relationships edges).
Proof. induction edges as [|[[u v] d] edges IH]; simpl; appends. Qed.

#[global] Hint Resolve appends_relationships : appends.

Section ScriptAppends.

Context (env : Env).

Lemma appends_label_node g nd : appends (label_node g nd).
Proof. destruct nd as [node data]. unfold label_node. appends. Qed.

Lemma appends_labelled_copy g : appends (labelled_copy g).
Proof. unfold labelled_copy. pose proof appends_label_node. appends. Qed.

Lemma appends_from_nx g : appends (from_nx env g).
Proof.
  intros w. unfold from_nx. destruct (env_from_nx env g (w_heap w)) as [r h].
  by exists [EvCall c_from_nx].
Qed.

Lemma appends_get_node_setitem net n k v : appends (get_node_setitem net n k v).
Proof. unfold get_node_setitem. appends. Qed.

Lemma appends_style_node net nd : appends (style_node net nd).
Proof.
  destruct nd as [node data]. unfold style_node.
  pose proof appends_get_node_setitem. appends.
Qed.

Lemma appends_style_nodes g net : appends (style_nodes g net).
Proof. unfold style_nodes. apply appends_fold_each. apply appends_style_node. Qed.

Lemma appends_NamedTemporaryFile suffix : appends (NamedTemporaryFile env suffix).
Proof.
  intros w. unfold NamedTemporaryFile.
  destruct (env_NamedTemporaryFile env (w_files w) suffix);
    by exists [EvCall c_NamedTemporaryFile].
Qed.

Lemma appends_save_graph net path : appends (save_graph env net path).
Proof.
  intros w. unfold save_graph.
  destruct (env_save_graph env net path); by exists [EvCall c_save_graph].
Qed.

Lemma appends_open_read path : appends (open_read env path).
Proof.
  intros w. unfold open_read.
  destruct (w_files w !! path); [destruct (env_read_error env path)|];
    by exists [EvCall c_open_read].
Qed.

Lemma appends_os_remove path : appends (os_remove env path).
Proof.
  intros w. unfold os_remove.
  destruct (w_files w !! path); [destruct (env_remove_error env path)|];
    by exists [EvCall c_os_remove].
Qed.

Lemma appends_components_html html height : appends (components_html env html height).
Proof. unfold components_html. appends. Qed.

Lemma appends_render g : appends (render env g).
Proof.
  unfold render.
  pose proof appends_labelled_copy. pose proof appends_from_nx.
  pose proof appends_style_nodes. pose proof appends_NamedTemporaryFile.
  pose proof appends_save_graph. pose proof appends_open_read.
  pose proof appends_os_remove. pose proof appends_components_html.
  appends.
Qed.

Lemma appends_visualize_subgraph g : appends (visualize_subgraph env g).
Proof.
  unfold visualize_subgraph, render_failed. pose proof appends_render.
  case_bool_decide; appends.
Qed.

Lemma appends_build_context_info name team opp g :
  appends (build_context_info name team opp g).
Proof. unfold build_context_info. appends. Qed.

End ScriptAppends.

(** ** The renderer on a graph without nodes *)

(** C4: on a subgraph with zero nodes [visualize_subgraph] shows the warning
    "No subgraph available to display." and returns: the world it leaves is
    the one it found plus that one event, so no copy was made (the heap is
    the same), nothing was serialized (the files are the same) and neither
    pyvis nor the HTML component was called (the trace has no other event). *)
Theorem visualize_subgraph_no_nodes (env : Env) (g : Graph) (w : World) :
  number_of_nodes g = 0%nat →
  let no_subgraph := EvSt st_warning "No subgraph available to display." in
  visualize_subgraph env g w = (Ok tt, add_event no_subgraph w)
  ∧ w_heap (visualize_subgraph env g w).2 = w_heap w
  ∧ w_files (visualize_subgraph env g w).2 = w_files w
  ∧ w_trace (visualize_subgraph env g w).2 = w_trace w ++ [no_subgraph].
Proof.
  intros Hzero no_subgraph. unfold visualize_subgraph.
  rewrite bool_decide_eq_true_2 by done. done.
Qed.

Lemma visualize_subgraph_no_nodes_witness :
  number_of_nodes Demo.empty_graph = 0%nat
  ∧ visualize_subgraph Demo.env Demo.empty_graph Demo.world
    = (Ok tt, add_event (EvSt st_warning "No subgraph available to display.") Demo.world).
Proof.
  split; [reflexivity|].
  apply (visualize_subgraph_no_nodes Demo.env Demo.empty_graph Demo.world).
  reflexivity.
Defined.

(** ** The player's team in the context *)

(** C10: the ['Player_Team'] field is ["Unknown"] for every falsy result of
    the team lookup, [None] and the empty string among them, and a non-empty
    abbreviation is passed through unchanged; every context the script builds
    carries that value. *)
Theorem player_team_unknown_when_falsy
    (player_name : string) (player_team_abbr : PyVal) (opponent : option string)
    (subgraph : Graph) (w : World) :
  (truthy player_team_abbr = false →
   player_team_or_unknown player_team_abbr = PyStr "Unknown")
  ∧ player_team_or_unknown PyNone = PyStr "Unknown"
  ∧ player_team_or_unknown (PyStr "") = PyStr "Unknown"
  ∧ (∀ s, s ≠ "" → player_team_or_unknown (PyStr s) = PyStr s)
  ∧ (∀ ci w',
       build_context_info player_name player_team_abbr opponent subgraph w = (Ok ci, w') →
       ctx_Player_Team ci = player_team_or_unknown player_team_abbr).
Proof.
  repeat split.
  - intros Hfalsy. unfold player_team_or_unknown. by rewrite Hfalsy.
  - intros s Hs. unfold player_team_or_unknown. simpl.
    destruct (String.eqb_spec s ""); [done|reflexivity].
  - intros ci w'. unfold build_context_info. rewrite bind_run.
    destruct (relationships (edges_data subgraph) w) as [[rels|e] w1]; [|done].
    by intros [= <- _].
Qed.

Lemma player_team_unknown_when_falsy_witness :
  ∃ ci w',
    build_context_info "LeBron James" (PyStr "") (Some "BOS") Demo.subgraph Demo.world
    = (Ok ci, w')
    ∧ ctx_Player_Team ci = PyStr "Unknown".
Proof.
  eexists _, _. split; [reflexivity|].
  pose proof (player_team_unknown_when_falsy "LeBron James" (PyStr "") (Some "BOS")
                Demo.subgraph Demo.world) as (_ & _ & Hempty & _ & Hctx).
  rewrite (Hctx _ _ eq_refl). exact Hempty.
Defined.

(** ** The displayed prediction *)

(** [28.4] is not a binary64 value; the float the literal denotes is 284/10
    correctly rounded, which [:.2f] prints back as 28.40. *)
Example float_28_4_is_the_literal :
  SFdiv 53 1024 (binary_normalize 53 1024 284 0 false)
                (binary_normalize 53 1024 10 0 false)
  = float_28_4
  ∧ format_2f (PyFloat float_28_4) = Ok "28.40".
Proof. split; reflexivity. Qed.

(** The Predict flow up to the two displayed lines; what follows only adds
    to the trace. *)
Lemma predict_trace (env : Env) (model_manager : ModelManager)
    (season player_name : string) (player_id : PyVal) (opponent : option string)
    (X : nat) (reg_pred clf_pred : PyVal) (points : string) (w : World) :
  env_prepare_input env player_name opponent season = Ok X →
  env_predict_regression env X (regressor_pipeline model_manager) = Ok reg_pred →
  env_predict_classification env X (classifier_pipeline model_manager) = Ok clf_pred →
  format_2f reg_pred = Ok points →
  ∃ later,
    w_trace (predict env model_manager season player_name player_id opponent w).2
    = w_trace w
      ++ [EvCall c_prepare_input; EvCall c_predict_regression;
          EvCall c_predict_classification;
          EvSt st_write ("**Predicted Points:** " +:+ points);
          EvSt st_write ("**Will Exceed Threshold:** "
                         +:+ (if py_eq_int clf_pred 1 then "Yes" else "No"))]
      ++ later.
Proof.
  intros Hinput Hreg Hclf Hpoints. unfold predict, call.
  rewrite Hinput. run_ok. rewrite Hreg. run_ok. rewrite Hclf. run_ok.
  rewrite Hpoints. do 3 run_ok.
  match goal with
  | |- context [(?m ≫= ?f) ?w0] =>
      assert (Hrest : appends (m ≫= f)); [|destruct (Hrest w0) as [later Hlater]]
  end.
  { pose proof appends_build_context_info.
    pose proof (appends_visualize_subgraph env). appends. }
  exists later. rewrite Hlater. simpl. by rewrite <- !app_assoc.
Qed.

(** C9: when the feature builder returns, the regression pipeline outputs
    28.4 and the classification pipeline outputs 1, the Predict flow writes
    "**Predicted Points:** 28.40" and "**Will Exceed Threshold:** Yes" right
    after the three calls, whatever happens later; the displayed text of the
    two includes "Predicted Points: 28.40" and "Will Exceed Threshold: Yes". *)
Theorem predict_displays_points_and_threshold
    (env : Env) (model_manager : ModelManager) (season player_name : string)
    (player_id : PyVal) (opponent : option string) (X : nat) (w : World) :
  env_prepare_input env player_name opponent season = Ok X →
  env_predict_regression env X (regressor_pipeline model_manager)
  = Ok (PyFloat float_28_4) →
  env_predict_classification env X (classifier_pipeline model_manager) = Ok (PyInt 1) →
  let points := "**Predicted Points:** 28.40" in
  let exceeds := "**Will Exceed Threshold:** Yes" in
  (∃ later,
     w_trace (predict env model_manager season player_name player_id opponent w).2
     = w_trace w
       ++ [EvCall c_prepare_input; EvCall c_predict_regression;
           EvCall c_predict_classification;
           EvSt st_write points; EvSt st_write exceeds]
       ++ later)
  ∧ includes "Predicted Points: 28.40" (markdown_text points)
  ∧ includes "Will Exceed Threshold: Yes" (markdown_text exceeds).
Proof.
  intros Hinput Hreg Hclf points exceeds. split; [|split].
  - exact (predict_trace env model_manager season player_name player_id opponent X
             (PyFloat float_28_4) (PyInt 1) "28.40" w Hinput Hreg Hclf eq_refl).
  - by exists "", "".
  - by exists "", "".
Qed.

Lemma predict_displays_points_and_threshold_witness :
  ∃ later,
    w_trace (predict Demo.env Demo.manager "2023-24" "LeBron James" (PyInt 2544)
               (Some "BOS") Demo.world).2
    = w_trace Demo.world
      ++ [EvCall c_prepare_input; EvCall c_predict_regression;
          EvCall c_predict_classification;
          EvSt st_write "**Predicted Points:** 28.40";
          EvSt st_write "**Will Exceed Threshold:** Yes"]
      ++ later.
Proof.
  apply (predict_displays_points_and_threshold Demo.env Demo.manager "2023-24"
           "LeBron James" (PyInt 2544) (Some "BOS") 0%nat Demo.world);
    reflexivity.
Defined.

(** ** An empty roster *)

(** C8: when the roster of the selected season is empty, no run of [main]
    invokes [prepare_input] or any later stage; and when the models load and
    a player name was entered, the run is exactly: the widgets, the model
    loading, the roster fetch, the message "No player data available for
    season <season>.", and nothing after it. *)
Theorem empty_roster_halts (env : Env) (w : World) (players_df : DataFrame) :
  let season :=
    str_opt (selected ["2023-24"; "2022-23"; "2021-22"] (env_season_index env)) in
  env_get_all_players env season = Ok players_df →
  df_empty players_df = true →
  (∃ evs, w_trace (main env w).2 = w_trace w ++ evs
          ∧ Forall (λ ev, pipeline_event ev = false) evs)
  ∧ (∀ m1 m2 m3,
       env_ModelManager env season = Ok m1 →
       env_mm_load_models env m1 = Ok m2 →
       env_mm_build_knowledge_graph env m2 = Ok m3 →
       env_player_name env ≠ "" →
       main env w
       = (Ok tt,
          mkWorld (w_heap w) (w_files w)
            (w_trace w
             ++ [EvSt st_title "NBA Player Performance Prediction";
                 EvSt st_selectbox "Select Season:";
                 EvCall c_ModelManager; EvCall c_load_models;
                 EvCall c_build_knowledge_graph;
                 EvSt st_text_input "Enter Player Name (e.g., LeBron James)";
                 EvCall c_get_all_players;
                 EvSt st_error ("No player data available for season " +:+ season
                                +:+ ".")]))).
Proof.
  intros season Hroster Hempty. split.
  - unfold main, load_models, page. fold season. run.
    rewrite Hroster, Hempty.
    repeat match goal with
           | |- context [match ?x with Ok _ => _ | Raise _ => _ end] =>
               destruct x
           | |- context [if ?b then _ else _] => destruct b
           end;
      cbn [w_trace snd];
      (eexists; split; [rewrite <- ?app_assoc; reflexivity|repeat constructor]).
  - intros m1 m2 m3 H1 H2 H3 Hname.
    unfold main, load_models, page. fold season. run.
    rewrite H1, H2, H3, Hroster, Hempty.
    destruct (String.eqb_spec (env_player_name env) ""); [done|].
    cbn. by rewrite <- !app_assoc.
Qed.

Lemma empty_roster_halts_witness :
  main Demo.env_no_roster Demo.world
  = (Ok tt,
     mkWorld Demo.heap ∅
       [EvSt st_title "NBA Player Performance Prediction";
        EvSt st_selectbox "Select Season:";
        EvCall c_ModelManager; EvCall c_load_models; EvCall c_build_knowledge_graph;
        EvSt st_text_input "Enter Player Name (e.g., LeBron James)";
        EvCall c_get_all_players;
        EvSt st_error "No player data available for season 2022-23."]).
Proof.
  apply (empty_roster_halts Demo.env_no_roster Demo.world Demo.empty_frame
           eq_refl eq_refl)
    with (m1 := Demo.manager) (m2 := Demo.manager) (m3 := Demo.manager);
    done.
Defined.

(** ** Failures of the Predict flow *)

(** C2, the code at a failing input: when the feature builder raises a
    [ValueError], [main] shows "Input error: ..." and returns; the run logs
    nothing.  The same holds for every exception the three handlers of the
    Predict flow catch: each only shows an error. *)
Theorem predict_failure_is_not_logged :
  main Demo.env_input_error Demo.world
  = (Ok tt,
     mkWorld Demo.heap ∅
       [EvSt st_title "NBA Player Performance Prediction";
        EvSt st_selectbox "Select Season:";
        EvCall c_ModelManager; EvCall c_load_models; EvCall c_build_knowledge_graph;
        EvSt st_text_input "Enter Player Name (e.g., LeBron James)";
        EvCall c_get_all_players; EvCall c_get_player_id; EvCall c_get_team_data;
        EvSt st_selectbox "Select Opponent Team";
        EvSt st_header "Predict Performance for LeBron James against BOS";
        EvSt st_button "Predict";
        EvCall c_prepare_input;
        EvSt st_error "Input error: Not enough games for LeBron James"])
  ∧ (∀ e handler w,
       first_clause predict_handlers e = Some handler →
       ∃ message, handler w = (Ok tt, add_event (EvSt st_error message) w)).
Proof.
  split; [reflexivity|].
  intros e handler w. unfold predict_handlers. cbn [first_clause].
  destruct (is_FileNotFoundError e); [intros [= <-]; by eexists|].
  destruct (is_ValueError e); [intros [= <-]; by eexists|].
  destruct (is_Exception e); [intros [= <-]; by eexists|done].
Qed.

(** ** The temporary file *)

(** C1, the code at two failing inputs: when the page cannot be read back,
    or when pyvis fails to write it, [visualize_subgraph] logs, shows its
    error and returns, and the temporary file it created is still there.
    (When only the HTML component fails the file is gone: it is removed
    before the component is called.) *)
Theorem temporary_file_is_left_behind :
  let path := "/tmp/tmpgraph.html" in
  let unread := visualize_subgraph Demo.env_read_fails Demo.subgraph Demo.world in
  let unsaved := visualize_subgraph Demo.env_save_fails Demo.subgraph Demo.world in
  let unshown := visualize_subgraph Demo.env_html_fails Demo.subgraph Demo.world in
  w_files Demo.world !! path = None
  ∧ unshown.1 = Ok tt
  ∧ w_files unshown.2 !! path = None
  ∧ unread.1 = Ok tt
  ∧ w_files unread.2 !! path = Some Demo.page_html
  ∧ w_trace unread.2
    = [EvCall c_copy; EvCall c_Network; EvCall c_from_nx;
       EvCall c_NamedTemporaryFile; EvCall c_save_graph; EvCall c_open_read;
       EvLogError ("Error visualizing subgraph: [Errno 5] Input/output error"
                   +:+ newline
                   +:+ "Traceback (most recent call last): [Errno 5] Input/output error");
       EvSt st_error "Error visualizing the Knowledge Graph subgraph."]
  ∧ unsaved.1 = Ok tt
  ∧ w_files unsaved.2 !! path = Some "".
Proof. vm_compute. repeat split. Qed.


(** ** The heap under [copy] and the labelling loop *)

Lemma set_heap_same (w : World) : set_heap (w_heap w) w = w.
Proof. by destruct w. Qed.




Lemma copy_dicts_run {K} (l : list (K * nat)) (w : World) :
  copy_dicts l w
  = (Ok (zip l.*1 (seq (length (w_heap w)) (length l))),
     set_heap (w_heap w ++ copied (w_heap w) l.*2) w).
Proof.
  revert w. induction l as [|[k r] l IH]; intros w; simpl.
  - by rewrite app_nil_r, set_heap_same.
  - unfold get_dict, alloc. run. rewrite IH. cbn [w_heap set_heap].
    rewrite length_app. simpl. rewrite Nat.add_1_r, <- app_assoc. reflexivity.
Qed.

Lemma copy_adj_run (a : list (NodeId * list (NodeId * nat))) (w : World) :
  ∃ a' extra,
    copy_adj a w = (Ok a', set_heap (w_heap w ++ extra) w)
    ∧ a'.*1 = a.*1
    ∧ Forall (λ r, (length (w_heap w) ≤ r)%nat) (flat_map (λ un, un.2.*2) a').
Proof.
  revert w. induction a as [|[u nbrs] a IH]; intros w; simpl.
  - exists [], []. by rewrite app_nil_r, set_heap_same.
  - run. rewrite copy_dicts_run.
    destruct (IH (set_heap (w_heap w ++ copied (w_heap w) nbrs.*2) w))
      as (a' & extra & -> & Hkeys & Hrefs).
    eexists _, _. split; [|split].
    + cbn [w_heap set_heap]. rewrite <- app_assoc. reflexivity.
    + rewrite !fmap_cons. simpl. by f_equal.
    + simpl. rewrite Forall_app. split.
      * rewrite snd_zip by (rewrite length_seq, length_fmap; lia).
        apply Forall_seq. intros; lia.
      * eapply Forall_impl; [exact Hrefs|]. simpl. intros r.
        rewrite length_app. lia.
Qed.

(** The world after [G.copy()]: the node dictionaries are allocated first,
    in order, then the edge dictionaries. *)
Lemma nx_copy_run (g : Graph) (w : World) :
  let h := w_heap w in
  ∃ a' extra,
    nx_copy g w
    = (Ok (mkGraph (zip (g_node g).*1 (seq (length h) (length (g_node g)))) a'),
       set_heap (h ++ copied h (g_node g).*2 ++ extra) (add_event (EvCall c_copy) w))
    ∧ a'.*1 = (g_adj g).*1
    ∧ Forall (λ r, (length h ≤ r)%nat) (flat_map (λ un, un.2.*2) a').
Proof.
  intros h. unfold nx_copy. run. rewrite copy_dicts_run. cbn [w_heap].
  match goal with |- context [copy_adj _ ?w1] =>
    destruct (copy_adj_run (g_adj g) w1) as (a' & extra & -> & Hkeys & Hrefs) end.
  exists a', extra. split; [|split; [done|]].
  - cbn [w_heap set_heap]. by rewrite <- app_assoc.
  - eapply Forall_impl; [exact Hrefs|]. simpl. intros r. rewrite length_app. fold h. lia.
Qed.


Lemma assoc_Some_elem {V} (l : list (NodeId * V)) (n : NodeId) (v : V) :
  assoc n l = Some v → (n, v) ∈ l.
Proof.
  unfold assoc. induction l as [|[k x] l IH]; simpl; [done|].
  case_bool_decide as Hkn; simpl in *.
  - intros [= <-]. subst k. apply elem_of_cons. by left.
  - intros H. apply elem_of_cons. right. by apply IH.
Qed.



Lemma label_all_length (l : list (NodeId * nat)) (h : list Attrs) :
  length (label_all l h) = length h.
Proof.
  revert h. induction l as [|[n r] l IH]; intros h; simpl; [done|].
  unfold label_all in *. simpl. by rewrite IH, length_insert.
Qed.






(** *** Computations that keep the dictionaries below an address *)

Lemma keeps_length (n : nat) (h h' : list Attrs) :
  (n ≤ length h)%nat → (∀ r, (r < n)%nat → h' !! r = h !! r) → (n ≤ length h')%nat.
Proof.
  destruct n as [|n]; [lia|]. intros Hn Hsame.
  destruct (lookup_lt_is_Some_2 h n) as [d Hd]; [lia|].
  specialize (Hsame n). rewrite Hd in Hsame.
  apply lookup_lt_Some in Hsame; lia.
Qed.

Lemma keeps_bind (n : nat) {A B} (m : M A) (f : A → M B) (P : A → Prop) (Q : B → Prop) :
  keeps n m P → (∀ a, P a → keeps n (f a) Q) → keeps n (m ≫= f) Q.
Proof.
  intros Hm Hf w Hn. rewrite bind_run. destruct (Hm w Hn) as [Hheap Hpost].
  destruct (m w) as [[a|e] w1]; simpl in *.
  - destruct (Hf a (Hpost a eq_refl) w1) as [Hheap' Hpost'].
    { by eapply keeps_length. }
    split; [|done]. intros r Hr. by rewrite Hheap', Hheap.
  - split; [done|]. by intros a [=].
Qed.

Lemma keeps_silent (n : nat) {A} (m : M A) :
  (∀ w, w_heap (m w).2 = w_heap w) → keeps n m (λ _, True).
Proof. intros Hm w _. split; [|done]. intros r _. by rewrite Hm. Qed.

Lemma keeps_try_except (n : nat) {A} (body : M A) (cs : Clauses A) :
  keeps n body (λ _, True) →
  Forall (λ c, ∀ e, keeps n (c.2 e) (λ _, True)) cs →
  keeps n (try_except body cs) (λ _, True).
Proof.
  intros Hb Hcs w Hn. split; [|done]. unfold try_except.
  destruct (Hb w Hn) as [Hheap _]. destruct (body w) as [[a|e] w1]; simpl in *; [done|].
  assert (Hh : ∀ h, first_clause cs e = Some h → keeps n h (λ _, True)).
  { clear -Hcs. induction Hcs as [|[test handler] cs Hc _ IH]; simpl; [done|].
    intros h. destruct (test e); [|by apply IH]. intros [= <-]. apply Hc. }
  destruct (first_clause cs e) as [h|]; simpl; [|done].
  destruct (Hh h eq_refl w1) as [Hheap' _]; [by eapply keeps_length|].
  intros r Hr. by rewrite Hheap', Hheap.
Qed.

Lemma keeps_for_each (n : nat) {A} (xs : list A) (body : A → M unit) :
  (∀ x, keeps n (body x) (λ _, True)) → keeps n (for_each xs body) (λ _, True).
Proof.
  intros Hb. induction xs as [|x xs IH]; simpl.
  - by apply keeps_silent.
  - eapply keeps_bind; [apply Hb|]. intros _ _. apply IH.
Qed.

Lemma keeps_nx_copy (n : nat) (g : Graph) :
  keeps n (nx_copy g) (λ g', Forall (λ r, (n ≤ r)%nat) (graph_refs g')).
Proof.
  intros w Hn. destruct (nx_copy_run g w) as (a' & extra & -> & _ & Hrefs).
  cbn [fst snd w_heap set_heap]. split.
  - intros r Hr. apply lookup_app_l. lia.
  - intros g' [= <-]. unfold graph_refs. cbn [g_node g_adj]. apply Forall_app. split.
    + rewrite snd_zip by (rewrite length_seq, length_fmap; lia).
      apply Forall_seq. intros; lia.
    + eapply Forall_impl; [exact Hrefs|]. simpl. intros; lia.
Qed.

Lemma keeps_label_node (n : nat) (g : Graph) (nd : NodeId * nat) :
  Forall (λ r, (n ≤ r)%nat) (graph_refs g) → keeps n (label_node g nd) (λ _, True).
Proof.
  intros Hrefs w Hn. split; [|done]. intros r Hr. destruct nd as [node data].
  unfold label_node, dict_getitem, nodes_getitem, get_dict, dict_setitem. run.
  assert (Hwrite : ∀ r', assoc node (g_node g) = Some r' → r' ≠ r).
  { intros r' Hr'. apply assoc_Some_elem in Hr'.
    unfold graph_refs in Hrefs. apply Forall_app in Hrefs as [Hnodes _].
    rewrite Forall_forall in Hnodes. specialize (Hnodes r').
    assert (r' ∈ (g_node g).*2) as Hin by (apply list_elem_of_fmap; by exists (node, r')).
    specialize (Hnodes Hin). lia. }
  case_bool_decide; [destruct (deref (w_heap w) data !! "name")|];
    destruct (assoc node (g_node g)) as [r'|] eqn:Hassoc; simpl; try done.
  all: rewrite list_lookup_insert_ne; [done|by apply Hwrite].
Qed.

Lemma keeps_labelled_copy (n : nat) (g : Graph) :
  keeps n (labelled_copy g) (λ g', Forall (λ r, (n ≤ r)%nat) (graph_refs g')).
Proof.
  unfold labelled_copy. eapply keeps_bind; [apply keeps_nx_copy|].
  intros g' Hg'. eapply keeps_bind.
  - apply keeps_for_each. intros nd. by apply keeps_label_node.
  - intros _ _ w Hn. split; [done|]. by intros ? [= <-].
Qed.

Section RenderKeeps.

Context (env : Env) (Hframe : from_nx_frame env).

Lemma keeps_from_nx (n : nat) (g : Graph) :
  Forall (λ r, (n ≤ r)%nat) (graph_refs g) → keeps n (from_nx env g) (λ _, True).
Proof.
  intros Hrefs w Hn. split; [|done]. intros r Hr. unfold from_nx.
  pose proof (Hframe g (w_heap w) r) as Hsame.
  destruct (env_from_nx env g (w_heap w)) as [res h']. cbn [snd w_heap add_event set_heap] in *.
  apply Hsame; [lia|]. intros Hin. rewrite Forall_forall in Hrefs.
  specialize (Hrefs r Hin). lia.
Qed.

Lemma silent_style_nodes (g : Graph) (net : Network) (w : World) :
  w_heap (style_nodes g net w).2 = w_heap w.
Proof.
  unfold style_nodes. generalize (nodes_data g). intros l. revert net w.
  induction l as [|[node data] l IH]; intros net w; cbn [fold_each]; [done|].
  rewrite bind_run.
  assert (Hstep : w_heap (style_node net (node, data) w).2 = w_heap w).
  { unfold style_node, get_node_setitem, get_dict. run.
    repeat match goal with
           | |- context [if ?b then _ else _] => destruct b
           | |- context [match get_node ?a ?b with _ => _ end] => destruct (get_node a b)
           end; reflexivity. }
  destruct (style_node net (node, data) w) as [[net'|e] w1]; simpl in *; [|done].
  by rewrite IH.
Qed.

Lemma keeps_render (n : nat) (g : Graph) : keeps n (render env g) (λ _, True).
Proof.
  unfold render. eapply keeps_bind; [apply keeps_labelled_copy|].
  intros g' Hg'. eapply keeps_bind.
  { eapply keeps_bind; [by apply (keeps_silent n (emit (EvCall c_Network)))|].
    intros _ _. by apply keeps_from_nx. }
  intros net _. eapply keeps_bind; [apply keeps_silent, silent_style_nodes|].
  intros net' _. eapply keeps_bind.
  { apply keeps_silent. intros w. unfold NamedTemporaryFile.
    by destruct (env_NamedTemporaryFile env (w_files w) ".html"). }
  intros path _. eapply keeps_bind.
  { apply keeps_silent. intros w. unfold save_graph.
    by destruct (env_save_graph env net' path). }
  intros _ _. eapply keeps_bind.
  { apply keeps_silent. intros w. unfold open_read.
    destruct (w_files w !! path); [destruct (env_read_error env path)|]; done. }
  intros html _. eapply keeps_bind.
  { apply keeps_silent. intros w. unfold os_remove.
    destruct (w_files w !! path); [destruct (env_remove_error env path)|]; done. }
  intros _ _. apply keeps_silent. intros w. unfold components_html.
  by destruct (env_html_error env html).
Qed.

Lemma keeps_visualize_subgraph (n : nat) (g : Graph) :
  keeps n (visualize_subgraph env g) (λ _, True).
Proof.
  unfold visualize_subgraph. case_bool_decide; [by apply keeps_silent|].
  apply keeps_try_except; [apply keeps_render|].
  constructor; [|constructor]. intros e. by apply keeps_silent.
Qed.

End RenderKeeps.

(** C7: rendering works on a copy.  Provided pyvis writes only into the
    dictionaries of the graph it is given, every dictionary that existed
    before the call, those of the canonical subgraph and of the knowledge
    graph among them, has the same items after [visualize_subgraph] returns,
    whether rendering succeeded or failed. *)
Theorem canonical_subgraph_is_unchanged (env : Env) (g : Graph) (w : World) :
  from_nx_frame env →
  (∀ r, (r < length (w_heap w))%nat →
        w_heap (visualize_subgraph env g w).2 !! r = w_heap w !! r)
  ∧ (refs_valid g (w_heap w) →
     Forall (λ r, deref (w_heap (visualize_subgraph env g w).2) r = deref (w_heap w) r)
            (graph_refs g)).
Proof.
  intros Hframe.
  destruct (keeps_visualize_subgraph env Hframe (length (w_heap w)) g w) as [Hkeep _];
    [done|].
  split; [exact Hkeep|]. intros Hvalid. eapply Forall_impl; [exact Hvalid|].
  intros r Hr. unfold deref. by rewrite Hkeep.
Qed.

Lemma demo_from_nx_frame : from_nx_frame Demo.env.
Proof.
  intros g h r _ Hr. cbn [Demo.env Demo.scenario env_from_nx Demo.from_nx snd].
  unfold graph_refs in Hr. apply not_elem_of_app in Hr as [Hr _].
  induction (g_node g) as [|[n r0] l IH]; simpl in *; [done|].
  apply not_elem_of_cons in Hr as [Hne Hr].
  rewrite list_lookup_insert_ne by done. by apply IH.
Qed.

Lemma canonical_subgraph_is_unchanged_witness :
  Forall (λ r, deref (w_heap (visualize_subgraph Demo.env Demo.subgraph Demo.world).2) r
               = deref Demo.heap r)
         (graph_refs Demo.subgraph).
Proof.
  apply (canonical_subgraph_is_unchanged Demo.env Demo.subgraph Demo.world).
  - apply demo_from_nx_frame.
  - compute_done.
Defined.

(** ** The styling of the nodes *)

Lemma assoc_set_option (m n : NodeId) (k : string) (v : PyVal) (net : Network) :
  assoc m (net_node_map (set_option n k v net))
  = (if bool_decide (m = n) then <[k := v]> else id) <$> assoc m (net_node_map net).
Proof.
  unfold set_option, assoc. cbn [net_node_map].
  induction (net_node_map net) as [|[n0 o] l IH]; simpl; [done|].
  destruct (decide (n0 = n)) as [->|Hne].
  - rewrite (bool_decide_eq_true_2 (n = n)) by done. simpl.
    destruct (decide (n = m)) as [->|Hnm].
    + by rewrite !bool_decide_eq_true_2 by done.
    + rewrite !(bool_decide_eq_false_2 (n = m)) by done. exact IH.
  - rewrite (bool_decide_eq_false_2 (n0 = n)) by done. simpl.
    destruct (decide (n0 = m)) as [->|Hnm].
    + rewrite (bool_decide_eq_true_2 (m = m)) by done.
      by rewrite (bool_decide_eq_false_2 (m = n)) by done.
    + rewrite (bool_decide_eq_false_2 (n0 = m)) by done. exact IH.
Qed.

Lemma assoc_restyle (m n : NodeId) (enc : option (string * string)) (net : Network) :
  assoc m (net_node_map (restyle n enc net))
  = (if bool_decide (m = n) then styled enc else id) <$> assoc m (net_node_map net).
Proof.
  destruct enc as [[color shape]|]; cbn [restyle styled].
  - rewrite !assoc_set_option. case_bool_decide; by destruct (assoc m (net_node_map net)).
  - case_bool_decide; by destruct (assoc m (net_node_map net)).
Qed.

(** One turn of the styling loop: the chain of comparisons is the table. *)
Lemma style_node_run (net : Network) (n : NodeId) (r : nat) (w : World) :
  let enc := encoding (deref (w_heap w) r !! "type") in
  is_Some (assoc n (net_node_map net)) ∨ enc = None →
  style_node net (n, r) w = (Ok (restyle n enc net), w).
Proof.
  intros enc Hin. unfold style_node. rewrite bind_run. cbn [get_dict]. subst enc.
  destruct (deref (w_heap w) r !! "type") as [[| | | |t]|]; try reflexivity.
  cbn [default from_option id py_eq_str encoding styling_table find fst snd] in *.
  assert (Hset : ∀ net' k v k' v',
    is_Some (assoc n (net_node_map net')) →
    (get_node_setitem net' n k v ≫= λ net0, get_node_setitem net0 n k' v') w
    = (Ok (set_option n k' v' (set_option n k v net')), w)).
  { intros net' k v k' v' [o Ho]. unfold get_node_setitem, get_node. run.
    rewrite Ho. rewrite assoc_set_option, Ho. reflexivity. }
  repeat match goal with
         | |- context [String.eqb t ?s] =>
             destruct (String.eqb t s);
             [destruct Hin as [Hin|Hin]; [by rewrite Hset|by simpl in Hin]|]
         end.
  reflexivity.
Qed.

Lemma style_nodes_run (l : list (NodeId * nat)) (net : Network) (w : World) :
  Forall (λ nr, is_Some (assoc nr.1 (net_node_map net))
                ∨ encoding (deref (w_heap w) nr.2 !! "type") = None) l →
  fold_each l style_node net w = (Ok (restyle_all l (w_heap w) net), w).
Proof.
  revert net. induction l as [|[n r] l IH]; intros net Hl; cbn [fold_each]; [done|].
  inversion_clear Hl as [|? ? Hn Hl'].
  erewrite bind_ok by (by apply style_node_run). rewrite IH; [done|].
  eapply Forall_impl; [exact Hl'|]. intros [m r'] [[o Ho]|Hnone]; [left|by right].
  cbn [fst] in *. rewrite assoc_restyle, Ho. by eexists.
Qed.

Lemma assoc_restyle_all_other (l : list (NodeId * nat)) (h : list Attrs) (net : Network)
    (m : NodeId) :
  m ∉ l.*1 → assoc m (net_node_map (restyle_all l h net)) = assoc m (net_node_map net).
Proof.
  revert net. induction l as [|[n r] l IH]; intros net Hm; [done|].
  rewrite fmap_cons in Hm. apply not_elem_of_cons in Hm as [Hne Hm].
  change (restyle_all ((n, r) :: l) h net)
    with (restyle_all l h (restyle n (encoding (deref h r !! "type")) net)).
  rewrite IH by done. rewrite assoc_restyle.
  rewrite bool_decide_eq_false_2 by done. by destruct (assoc m (net_node_map net)).
Qed.

Lemma assoc_restyle_all (l : list (NodeId * nat)) (h : list Attrs) (net : Network)
    (n : NodeId) (r : nat) :
  NoDup l.*1 → (n, r) ∈ l →
  assoc n (net_node_map (restyle_all l h net))
  = styled (encoding (deref h r !! "type")) <$> assoc n (net_node_map net).
Proof.
  revert net. induction l as [|[n0 r0] l IH]; intros net Hnd Hin.
  - by apply elem_of_nil in Hin.
  - rewrite fmap_cons in Hnd. apply NoDup_cons in Hnd as [Hn0 Hnd].
    change (restyle_all ((n0, r0) :: l) h net)
      with (restyle_all l h (restyle n0 (encoding (deref h r0 !! "type")) net)).
    apply elem_of_cons in Hin as [[= -> ->]|Hin].
    + rewrite assoc_restyle_all_other by done. rewrite assoc_restyle.
      by rewrite bool_decide_eq_true_2 by done.
    + assert (n ≠ n0) as Hne.
      { intros ->. apply Hn0. apply list_elem_of_fmap. by exists (n0, r). }
      rewrite (IH _ Hnd Hin), assoc_restyle.
      rewrite bool_decide_eq_false_2 by done.
      by destruct (assoc n (net_node_map net)).
Qed.

(** C5: the styling loop applies the fixed table.  When every node of the
    copy is a node of the network, the loop returns, and a node's options are
    then the ones pyvis gave it with ['color'] and ['shape'] set from the
    table row of its ['type']: Player blue ellipse, Team green box, Game red
    diamond, Opponent_Team purple dot, Home_Away orange triangle, Performance
    yellow star.  A node whose type is missing, is not a string or is not one
    of the six keeps its options, and its turn of the loop returns whatever
    the network holds. *)
Theorem styling_follows_the_table (g : Graph) (net : Network) (w : World) :
  NoDup (g_node g).*1 →
  Forall (λ nr, is_Some (assoc nr.1 (net_node_map net))) (g_node g) →
  (∃ net',
     style_nodes g net w = (Ok net', w)
     ∧ ∀ n r, (n, r) ∈ g_node g →
         assoc n (net_node_map net')
         = styled (encoding (deref (w_heap w) r !! "type")) <$> assoc n (net_node_map net))
  ∧ (encoding ∘ Some ∘ PyStr)
      <$> ["Player"; "Team"; "Game"; "Opponent_Team"; "Home_Away"; "Performance"]
    = Some <$> [("blue", "ellipse"); ("green", "box"); ("red", "diamond");
                ("purple", "dot"); ("orange", "triangle"); ("yellow", "star")]
  ∧ (∀ node_type,
       (∀ t, node_type = Some (PyStr t) →
             t ∉ ["Player"; "Team"; "Game"; "Opponent_Team"; "Home_Away"; "Performance"]) →
       encoding node_type = None)
  ∧ (∀ any_net n r,
       encoding (deref (w_heap w) r !! "type") = None →
       style_node any_net (n, r) w = (Ok any_net, w)).
Proof.
  intros Hnd Hin. split; [|split; [reflexivity|split]].
  - exists (restyle_all (g_node g) (w_heap w) net). split.
    + unfold style_nodes, nodes_data. apply style_nodes_run.
      eapply Forall_impl; [exact Hin|]. intros nr ?. by left.
    + intros n r Hn. by apply assoc_restyle_all.
  - intros [[| | | |t]|] Hnot; try reflexivity.
    specialize (Hnot t eq_refl). cbn [encoding styling_table find fst].
    repeat match goal with
           | |- context [String.eqb t ?s] =>
               destruct (String.eqb_spec t s) as [->|_]; [exfalso; apply Hnot; set_solver|]
           end.
    reflexivity.
  - intros any_net n r Hnone.
    rewrite style_node_run by (by right). by rewrite Hnone.
Qed.

Lemma styling_follows_the_table_witness :
  ∃ net',
    style_nodes Demo.subgraph Demo.network Demo.world = (Ok net', Demo.world)
    ∧ (∀ n r, (n, r) ∈ g_node Demo.subgraph →
         assoc n (net_node_map net')
         = styled (encoding (deref Demo.heap r !! "type"))
             <$> assoc n (net_node_map Demo.network)).
Proof.
  refine (proj1 (styling_follows_the_table Demo.subgraph Demo.network Demo.world _ _));
    compute_done.
Defined.

(** The run on the example: LeBron James is a blue ellipse, the Lakers a
    green box, and the "Arena" node keeps the defaults of pyvis. *)
Example styling_of_the_example :
  match style_nodes Demo.subgraph Demo.network Demo.world with
  | (Ok net', _) =>
      (λ o, (o !! "color", o !! "shape")) <$> (net_node_map net').*2
      = [(Some (PyStr "blue"), Some (PyStr "ellipse"));
         (Some (PyStr "green"), Some (PyStr "box"));
         (Some (PyStr "#97c2fc"), Some (PyStr "dot"))]
  | (Raise _, _) => False
  end.
Proof. vm_compute. reflexivity. Qed.

(** ** The relationships of the context *)

(** The comprehension keeps the edges' endpoints, in order, or raises the
    [KeyError] of an edge without ['relation']; it changes nothing. *)
Lemma relationships_run (edges : list (NodeId * NodeId * nat)) (w : World) :
  match relationships edges w with
  | (Ok rels, w') => w' = w ∧ endpoints <$> rels = fst <$> edges
  | (Raise e, w') =>
      w' = w ∧ exc_class e = KeyError ∧ Exists (lacks_relation (w_heap w)) edges
  end.
Proof.
  induction edges as [|[[u v] d] edges IH]; cbn [relationships]; [done|].
  rewrite bind_run. unfold dict_getitem at 1. rewrite bind_run. cbn [get_dict].
  destruct (deref (w_heap w) d !! "relation") as [relation|] eqn:Hrel.
  - cbn [mret M_ret]. rewrite bind_run.
    destruct (relationships edges w) as [[rels|e] w1].
    + destruct IH as [-> IH]. cbn. split; [done|]. by rewrite IH.
    + destruct IH as (-> & Hclass & Hex). split; [done|]. split; [done|].
      by apply Exists_cons_tl.
  - cbn. split; [done|]. split; [done|]. by apply Exists_cons_hd.
Qed.

Lemma edges_data_closed (g : Graph) :
  nx_closed g →
  Forall (λ e, e.1.1 ∈ (g_node g).*1 ∧ e.1.2 ∈ (g_node g).*1) (edges_data g).
Proof.
  unfold nx_closed, edges_data. generalize (g_node g).*1. intros nodes.
  induction 1 as [|[u nbrs] a [Hu Hnbrs] _ IH]; cbn [flat_map]; [constructor|].
  apply Forall_app. split; [|exact IH].
  apply Forall_fmap. eapply Forall_impl; [exact Hnbrs|]. by intros [v r] Hv.
Qed.

(** C3: the relationships of the context are the edges of the subgraph, in
    order, so the source and the target of every triple are nodes of that
    subgraph; the context is not built only when an edge has no
    ['relation'], which raises a [KeyError]. *)
Theorem relationships_reference_subgraph_nodes
    (player_name : string) (player_team_abbr : PyVal) (opponent : option string)
    (subgraph : Graph) (w : World) :
  nx_closed subgraph →
  match build_context_info player_name player_team_abbr opponent subgraph w with
  | (Ok context_info, _) =>
      Forall (λ rel, rel_source rel ∈ (g_node subgraph).*1
                     ∧ rel_target rel ∈ (g_node subgraph).*1)
             (ctx_Relationships context_info)
      ∧ endpoints <$> ctx_Relationships context_info = fst <$> edges_data subgraph
  | (Raise e, _) =>
      exc_class e = KeyError ∧ Exists (lacks_relation (w_heap w)) (edges_data subgraph)
  end.
Proof.
  intros Hclosed. unfold build_context_info. rewrite bind_run.
  pose proof (relationships_run (edges_data subgraph) w) as Hrun.
  pose proof (edges_data_closed subgraph Hclosed) as Hedges.
  destruct (relationships (edges_data subgraph) w) as [[rels|e] w1].
  - destruct Hrun as [-> Hends]. cbn. split; [|done].
    assert (Forall (λ p : NodeId * NodeId,
                      p.1 ∈ (g_node subgraph).*1 ∧ p.2 ∈ (g_node subgraph).*1)
                   (endpoints <$> rels)) as Hall.
    { rewrite Hends. by apply Forall_fmap. }
    by apply Forall_fmap in Hall.
  - by destruct Hrun as (_ & ? & ?).
Qed.

Lemma relationships_reference_subgraph_nodes_witness :
  ∃ rels,
    (build_context_info "LeBron James" (PyStr "LAL") (Some "BOS") Demo.subgraph
       Demo.world).1
    = Ok (mkContextInfo "LeBron James" (PyStr "LAL") (Some "BOS") rels)
    ∧ Forall (λ rel, rel_source rel ∈ (g_node Demo.subgraph).*1
                     ∧ rel_target rel ∈ (g_node Demo.subgraph).*1) rels.
Proof.
  eexists. split; [reflexivity|].
  assert (nx_closed Demo.subgraph) as Hclosed by compute_done.
  exact (proj1 (relationships_reference_subgraph_nodes "LeBron James" (PyStr "LAL")
                  (Some "BOS") Demo.subgraph Demo.world Hclosed)).
Defined.

(** ** Building a graph keeps the invariant *)

Lemma assoc_None_not_elem {V} (l : list (NodeId * V)) (n : NodeId) :
  assoc n l = None → n ∉ l.*1.
Proof.
  unfold assoc. induction l as [|[k x] l IH]; simpl; [intros _; apply not_elem_of_nil|].
  case_bool_decide as Hkn; simpl in *; [done|].
  intros H. apply not_elem_of_cons. split; [done|]. by apply IH.
Qed.

Lemma assoc_is_Some_elem {V} (l : list (NodeId * V)) (n : NodeId) :
  is_Some (assoc n l) → n ∈ l.*1.
Proof.
  intros [v Hv]. apply assoc_Some_elem in Hv. apply list_elem_of_fmap. by exists (n, v).
Qed.

Lemma nx_closed_more_nodes (nodes nodes' : list (NodeId * nat)) a :
  nodes.*1 ⊆ nodes'.*1 → nx_closed (mkGraph nodes a) → nx_closed (mkGraph nodes' a).
Proof.
  intros Hsub. unfold nx_closed. cbn [g_node g_adj]. intros Hc.
  eapply Forall_impl; [exact Hc|]. intros [u nbrs] [Hu Hnbrs]. split; [by apply Hsub|].
  eapply Forall_impl; [exact Hnbrs|]. intros [v r] Hv. by apply Hsub.
Qed.

Lemma nx_empty_wf : nx_wf (mkGraph [] []).
Proof. split; [apply NoDup_nil_2|]. by apply Forall_nil. Qed.

Lemma nx_add_node_wf (n : NodeId) (attr : Attrs) (g : Graph) (w : World) :
  nx_wf g →
  ∃ g' w', nx_add_node n attr g w = (Ok g', w')
           ∧ nx_wf g' ∧ n ∈ (g_node g').*1 ∧ (g_node g).*1 ⊆ (g_node g').*1.
Proof.
  intros [Hnd Hclosed]. unfold nx_add_node.
  destruct (assoc n (g_node g)) as [r|] eqn:Hn.
  - eexists _, _. split; [reflexivity|]. split; [done|]. split; [|done].
    apply assoc_is_Some_elem. by rewrite Hn.
  - eexists _, _. split; [reflexivity|].
    assert (Hkeys : (g_node g ++ [(n, length (w_heap w))]).*1 = (g_node g).*1 ++ [n])
      by (by rewrite fmap_app).
    cbn [g_node]. rewrite Hkeys. split; [split|].
    + cbn [g_node]. rewrite Hkeys. apply NoDup_app. split; [done|].
      split; [|apply NoDup_singleton].
      intros x Hx ->%list_elem_of_singleton. by apply assoc_None_not_elem in Hn.
    + unfold nx_closed. cbn [g_node g_adj]. rewrite Hkeys. apply Forall_app. split.
      * eapply Forall_impl; [exact Hclosed|]. intros [x nbrs] [Hx Hnbrs]. split.
        -- apply elem_of_app. by left.
        -- eapply Forall_impl; [exact Hnbrs|]. intros [y r] Hy. apply elem_of_app. by left.
      * constructor; [|constructor]. split; [|constructor].
        apply elem_of_app. right. by apply list_elem_of_singleton.
    + split.
      * apply elem_of_app. right. by apply list_elem_of_singleton.
      * intros x Hx. apply elem_of_app. by left.
Qed.

Lemma nx_add_edge_wf (u v : NodeId) (attr : Attrs) (g : Graph) (w : World) :
  nx_wf g →
  ∃ g' w', nx_add_edge u v attr g w = (Ok g', w') ∧ nx_wf g'.
Proof.
  intros Hwf. unfold nx_add_edge.
  assert (∃ g1 w1,
    (if bool_decide (is_Some (assoc u (g_node g))) then mret g else nx_add_node u ∅ g) w
    = (Ok g1, w1) ∧ nx_wf g1 ∧ u ∈ (g_node g1).*1) as (g1 & w1 & Hrun1 & Hwf1 & Hu).
  { case_bool_decide as Hin.
    - exists g, w. split; [done|]. split; [done|]. by apply assoc_is_Some_elem.
    - destruct (nx_add_node_wf u ∅ g w Hwf) as (g1 & w1 & ? & ? & ? & _). by exists g1, w1. }
  erewrite bind_ok by exact Hrun1. clear Hrun1.
  assert (∃ g2 w2,
    (if bool_decide (is_Some (assoc v (g_node g1))) then mret g1 else nx_add_node v ∅ g1) w1
    = (Ok g2, w2) ∧ nx_wf g2 ∧ u ∈ (g_node g2).*1 ∧ v ∈ (g_node g2).*1)
    as (g2 & w2 & Hrun2 & Hwf2 & Hu2 & Hv2).
  { case_bool_decide as Hin.
    - exists g1, w1. split; [done|]. split; [done|]. split; [done|].
      by apply assoc_is_Some_elem.
    - destruct (nx_add_node_wf v ∅ g1 w1 Hwf1) as (g2 & w2 & ? & ? & ? & Hsub).
      exists g2, w2. split; [done|]. split; [done|]. split; [by apply Hsub|done]. }
  erewrite bind_ok by exact Hrun2. clear Hrun2.
  destruct (assoc u (g_adj g2) ≫= assoc v) as [r|].
  - eexists _, _. split; [reflexivity|done].
  - eexists _, _. split; [reflexivity|]. destruct Hwf2 as [Hnd2 Hclosed2].
    split; [done|]. unfold nx_closed, add_successor in *. cbn [g_node g_adj].
    apply Forall_fmap. eapply Forall_impl; [exact Hclosed2|].
    intros [x nbrs] [Hx Hnbrs]. unfold compose. cbn [fst snd] in *.
    case_bool_decide; cbn [fst snd]; [|by split].
    split; [done|]. apply Forall_app. split; [done|]. by constructor.
Qed.

(** ** A failed rendering *)

(** Lines 54 and 106-109: a failure of the rendering never leaves
    [visualize_subgraph] as an [Exception]; it is logged with its message and
    traceback, then shown as "Error visualizing the Knowledge Graph
    subgraph.", and the call returns. *)
Theorem render_failure_is_contained (env : Env) (g : Graph) (w : World) :
  match visualize_subgraph env g w with
  | (Ok _, _) => True
  | (Raise e, _) => is_Exception e = false
  end
  ∧ (∀ e w1,
       number_of_nodes g ≠ 0%nat →
       render env g w = (Raise e, w1) →
       is_Exception e = true →
       visualize_subgraph env g w
       = (Ok tt,
          add_event (EvSt st_error "Error visualizing the Knowledge Graph subgraph.")
            (add_event
               (EvLogError ("Error visualizing subgraph: " +:+ exc_str e +:+ newline
                            +:+ env_format_exc env e))
               w1))).
Proof.
  split.
  - unfold visualize_subgraph, try_except. case_bool_decide; [done|].
    destruct (render env g w) as [[[]|e] w1]; [done|]. cbn [first_clause].
    destruct (is_Exception e) eqn:He; [done|exact He].
  - intros e w1 Hnodes Hrender He. unfold visualize_subgraph, try_except.
    rewrite bool_decide_eq_false_2 by done. rewrite Hrender. cbn [first_clause].
    by rewrite He.
Qed.

Lemma render_failure_is_contained_witness :
  visualize_subgraph Demo.env_save_fails Demo.subgraph Demo.world
  = (Ok tt,
     add_event (EvSt st_error "Error visualizing the Knowledge Graph subgraph.")
       (add_event
          (EvLogError
             ("Error visualizing subgraph: 'charmap' codec can't encode character"
              +:+ newline
              +:+ "Traceback (most recent call last): 'charmap' codec can't encode character"))
          (render Demo.env_save_fails Demo.subgraph Demo.world).2)).
Proof.
  refine (proj2 (render_failure_is_contained Demo.env_save_fails Demo.subgraph Demo.world)
            (mkExc ValueError "'charmap' codec can't encode character") _ _ _ _).
  - compute_done.
  - vm_compute. reflexivity.
  - reflexivity.
Defined.

(** ** A player that is not found *)

(** Lines 137-140: when the roster is not empty and the name resolves to no
    player, [main] shows "Player not found. Please check the name and try
    again." and stops: the team table is not fetched and no later stage
    runs. *)
Theorem unknown_player_halts (env : Env) (w : World) (players_df : DataFrame)
    (m1 m2 m3 : ModelManager) :
  let season :=
    str_opt (selected ["2023-24"; "2022-23"; "2021-22"] (env_season_index env)) in
  env_ModelManager env season = Ok m1 →
  env_mm_load_models env m1 = Ok m2 →
  env_mm_build_knowledge_graph env m2 = Ok m3 →
  env_player_name env ≠ "" →
  env_get_all_players env season = Ok players_df →
  df_empty players_df = false →
  env_get_player_id env (env_player_name env) players_df = Ok PyNone →
  main env w
  = (Ok tt,
     mkWorld (w_heap w) (w_files w)
       (w_trace w
        ++ [EvSt st_title "NBA Player Performance Prediction";
            EvSt st_selectbox "Select Season:";
            EvCall c_ModelManager; EvCall c_load_models;
            EvCall c_build_knowledge_graph;
            EvSt st_text_input "Enter Player Name (e.g., LeBron James)";
            EvCall c_get_all_players; EvCall c_get_player_id;
            EvSt st_error "Player not found. Please check the name and try again."])).
Proof.
  intros season H1 H2 H3 Hname Hroster Hsome Hid.
  unfold main, load_models, page. fold season. run.
  rewrite H1, H2, H3, Hroster, Hsome, Hid.
  rewrite bool_decide_eq_true_2 by done.
  destruct (String.eqb_spec (env_player_name env) ""); [done|].
  cbn. by rewrite <- !app_assoc.
Qed.

Lemma unknown_player_halts_witness :
  main Demo.env_unknown_player Demo.world
  = (Ok tt,
     mkWorld Demo.heap ∅
       [EvSt st_title "NBA Player Performance Prediction";
        EvSt st_selectbox "Select Season:";
        EvCall c_ModelManager; EvCall c_load_models; EvCall c_build_knowledge_graph;
        EvSt st_text_input "Enter Player Name (e.g., LeBron James)";
        EvCall c_get_all_players; EvCall c_get_player_id;
        EvSt st_error "Player not found. Please check the name and try again."]).
Proof.
  apply (unknown_player_halts Demo.env_unknown_player Demo.world Demo.frame
           Demo.manager Demo.manager Demo.manager); done.
Defined.

(** ** Models that do not load *)

(** Lines 30-40 and 118-125: when the model manager cannot be built because
    a file is missing, [load_models] logs "Model file missing: ..." and
    raises again, [main] shows the same message and stops before asking for
    a player. *)
Theorem missing_model_file_halts (env : Env) (w : World) (e : PyExc) :
  let season :=
    str_opt (selected ["2023-24"; "2022-23"; "2021-22"] (env_season_index env)) in
  env_ModelManager env season = Raise e →
  exc_class e = FileNotFoundError →
  main env w
  = (Ok tt,
     mkWorld (w_heap w) (w_files w)
       (w_trace w
        ++ [EvSt st_title "NBA Player Performance Prediction";
            EvSt st_selectbox "Select Season:";
            EvCall c_ModelManager;
            EvLogError ("Model file missing: " +:+ exc_str e);
            EvSt st_error ("Model file missing: " +:+ exc_str e)])).
Proof.
  intros season Hraise Hclass.
  unfold main, load_models. fold season. run. rewrite Hraise.
  unfold is_FileNotFoundError. rewrite !bool_decide_eq_true_2 by done.
  cbn. by rewrite <- !app_assoc.
Qed.

Lemma missing_model_file_halts_witness :
  main Demo.env_no_models Demo.world
  = (Ok tt,
     mkWorld Demo.heap ∅
       [EvSt st_title "NBA Player Performance Prediction";
        EvSt st_selectbox "Select Season:";
        EvCall c_ModelManager;
        EvLogError "Model file missing: models/regressor.pkl";
        EvSt st_error "Model file missing: models/regressor.pkl"]).
Proof.
  apply (missing_model_file_halts Demo.env_no_models Demo.world
           (mkExc FileNotFoundError "models/regressor.pkl")); reflexivity.
Defined.

(** ** The temporary file on the success path *)

Lemma same_files_bind {A B} (m : M A) (f : A → M B) :
  same_files m → (∀ a, same_files (f a)) → same_files (m ≫= f).
Proof.
  intros Hm Hf w. rewrite bind_run. specialize (Hm w).
  destruct (m w) as [[a|e] w1]; simpl in *; [|done]. by rewrite Hf.
Qed.

Lemma same_files_for_each {A} (xs : list A) (body : A → M unit) :
  (∀ x, same_files (body x)) → same_files (for_each xs body).
Proof.
  intros Hb. induction xs as [|x xs IH]; simpl; [done|].
  apply same_files_bind; [apply Hb|]. intros _. apply IH.
Qed.


Lemma same_files_copy_dicts {K} (l : list (K * nat)) : same_files (copy_dicts l).
Proof. intros w. by rewrite copy_dicts_run. Qed.

Lemma same_files_nx_copy (g : Graph) : same_files (nx_copy g).
Proof. intros w. by destruct (nx_copy_run g w) as (a' & extra & -> & _). Qed.

Lemma same_files_label_node (g : Graph) (nd : NodeId * nat) :
  same_files (label_node g nd).
Proof.
  intros w. destruct nd as [node data].
  unfold label_node, dict_getitem, nodes_getitem, get_dict, dict_setitem. run.
  case_bool_decide; [destruct (deref (w_heap w) data !! "name")|];
    by destruct (assoc node (g_node g)).
Qed.

Lemma same_files_labelled_copy (g : Graph) : same_files (labelled_copy g).
Proof.
  unfold labelled_copy. apply same_files_bind; [apply same_files_nx_copy|].
  intros g'. apply same_files_bind; [|done].
  apply same_files_for_each, same_files_label_node.
Qed.




(** ** The prediction and later failures *)

(** Lines 154-203: once the two pipelines have answered and the points
    format, the two lines of the prediction are on the page, and they stay
    there whichever later stage fails and whichever handler then runs. *)
Theorem prediction_survives_later_failures (env : Env) (model_manager : ModelManager)
    (season player_name : string) (player_id : PyVal) (opponent : option string)
    (X : nat) (reg_pred clf_pred : PyVal) (points : string) (w : World) :
  env_prepare_input env player_name opponent season = Ok X →
  env_predict_regression env X (regressor_pipeline model_manager) = Ok reg_pred →
  env_predict_classification env X (classifier_pipeline model_manager) = Ok clf_pred →
  format_2f reg_pred = Ok points →
  ∃ later,
    w_trace (try_except
               (predict env model_manager season player_name player_id opponent)
               predict_handlers w).2
    = w_trace w
      ++ [EvCall c_prepare_input; EvCall c_predict_regression;
          EvCall c_predict_classification;
          EvSt st_write ("**Predicted Points:** " +:+ points);
          EvSt st_write ("**Will Exceed Threshold:** "
                         +:+ (if py_eq_int clf_pred 1 then "Yes" else "No"))]
      ++ later.
Proof.
  intros Hinput Hreg Hclf Hpoints.
  destruct (predict_trace env model_manager season player_name player_id opponent X
              reg_pred clf_pred points w Hinput Hreg Hclf Hpoints) as [later Hlater].
  unfold try_except, predict_handlers.
  destruct (predict env model_manager season player_name player_id opponent w)
    as [[[]|e] w1]; cbn [snd] in Hlater; [by exists later|].
  cbn [first_clause].
  destruct (is_FileNotFoundError e); [|destruct (is_ValueError e);
                                        [|destruct (is_Exception e)]];
    cbn; rewrite ?Hlater; rewrite <- ?app_assoc; by eexists.
Qed.

Lemma prediction_survives_later_failures_witness :
  ∃ later,
    w_trace (try_except
               (predict Demo.env_save_fails Demo.manager "2023-24" "LeBron James"
                  (PyInt 2544) (Some "BOS"))
               predict_handlers Demo.world).2
    = w_trace Demo.world
      ++ [EvCall c_prepare_input; EvCall c_predict_regression;
          EvCall c_predict_classification;
          EvSt st_write "**Predicted Points:** 28.40";
          EvSt st_write "**Will Exceed Threshold:** Yes"]
      ++ later.
Proof.
  apply (prediction_survives_later_failures Demo.env_save_fails Demo.manager "2023-24"
           "LeBron James" (PyInt 2544) (Some "BOS") 0%nat (PyFloat float_28_4)
           (PyInt 1) "28.40" Demo.world); reflexivity.
Defined.

(** ** [load_models] *)


(** ** Models that do not load, in general *)

(** Lines 118-125: whenever [load_models] raises an [Exception], [main]
    shows one error, "Model file missing: ..." for a missing file and "An
    unexpected error occurred while loading models: ..." otherwise, and
    returns: it does not ask for a player.  An exception that is not an
    [Exception] leaves [main]. *)
Theorem model_loading_failure_halts (env : Env) (w w1 : World) (e : PyExc) :
  load_models env (selected_season env) (after_season_selector w) = (Raise e, w1) →
  main env w
  = if is_Exception e
    then (Ok tt, add_event (EvSt st_error (loading_error_text e)) w1)
    else (Raise e, w1).
Proof.
  intros Hload. unfold main. fold (selected_season env).
  do 2 run_ok. change (add_event _ (add_event _ w)) with (after_season_selector w).
  rewrite bind_run. unfold try_except at 1. rewrite bind_run, Hload.
  cbn [first_clause]. unfold loading_error_text.
  destruct e as [[] msg]; reflexivity.
Qed.

Lemma model_loading_failure_halts_witness :
  main Cases.env_corrupt_model Demo.world
  = (Ok tt,
     mkWorld Demo.heap ∅
       [EvSt st_title "NBA Player Performance Prediction";
        EvSt st_selectbox "Select Season:";
        EvCall c_ModelManager;
        EvLogError "Unexpected error loading models: invalid load key";
        EvSt st_error "An unexpected error occurred while loading models: invalid load key"]).
Proof.
  exact (model_loading_failure_halts Cases.env_corrupt_model Demo.world _
           (mkExc RuntimeError "invalid load key") eq_refl).
Defined.

(** ** Failures outside the [try] *)

(** Lines 131, 137, 143 and 148: the roster fetch, the player lookup, the
    team fetch and the ['abbreviation'] column are read outside any [try]:
    when one of them raises, whatever the exception, it leaves [main]. *)
Theorem unguarded_failures_escape_main (env : Env) (w : World) (m1 m2 m3 : ModelManager)
    (e : PyExc) :
  let season := selected_season env in
  env_ModelManager env season = Ok m1 →
  env_mm_load_models env m1 = Ok m2 →
  env_mm_build_knowledge_graph env m2 = Ok m3 →
  env_player_name env ≠ "" →
  (env_get_all_players env season = Raise e → (main env w).1 = Raise e)
  ∧ (∀ players_df,
       env_get_all_players env season = Ok players_df →
       df_empty players_df = false →
       (env_get_player_id env (env_player_name env) players_df = Raise e →
        (main env w).1 = Raise e)
       ∧ (∀ player_id,
            env_get_player_id env (env_player_name env) players_df = Ok player_id →
            player_id ≠ PyNone →
            (env_get_team_data env = Raise e → (main env w).1 = Raise e)
            ∧ (∀ all_teams,
                 env_get_team_data env = Ok all_teams →
                 df_empty all_teams = false →
                 df_column_tolist all_teams "abbreviation" = Raise e →
                 (main env w).1 = Raise e))).
Proof.
  intros season H1 H2 H3 Hname.
  assert (Hpage : main env w
                  = page env m3 season
                      (mkWorld (w_heap w) (w_files w)
                         (w_trace w ++ [EvSt st_title "NBA Player Performance Prediction";
                                        EvSt st_selectbox "Select Season:"]
                          ++ load_models_calls))).
  { unfold main, load_models, load_models_calls. fold (selected_season env). fold season.
    run. rewrite H1, H2, H3. cbn [w_heap w_files w_trace].
    by rewrite <- !app_assoc. }
  rewrite Hpage. clear Hpage. unfold page. run.
  destruct (String.eqb_spec (env_player_name env) "") as [|_]; [done|]. cbn [negb].
  split.
  { intros ->. reflexivity. }
  intros players_df -> ->. split.
  { intros ->. reflexivity. }
  intros player_id -> Hid. rewrite bool_decide_eq_false_2 by done. split.
  { intros ->. reflexivity. }
  intros all_teams -> -> ->. reflexivity.
Qed.

Lemma unguarded_failures_escape_main_witness :
  (main Cases.env_roster_unavailable Demo.world).1
  = Raise (mkExc RuntimeError "stats endpoint timed out").
Proof.
  refine (proj1 (unguarded_failures_escape_main Cases.env_roster_unavailable Demo.world
                   Demo.manager Demo.manager Demo.manager
                   (mkExc RuntimeError "stats endpoint timed out") _ _ _ _) _);
    done.
Defined.

(** ** No prediction without a request *)

(** Lines 129 and 153: when no player name was entered, or the Predict
    button was not clicked, no run of [main] builds features, predicts,
    extracts, explains or renders, whatever the collaborators answer. *)
Theorem no_prediction_without_request (env : Env) (w : World) :
  env_player_name env = "" ∨ env_predict_clicked env = false →
  ∃ evs, w_trace (main env w).2 = w_trace w ++ evs
         ∧ Forall (λ ev, pipeline_event ev = false) evs.
Proof.
  intros Hrequest. unfold main, load_models, page. run.
  destruct Hrequest as [Hname|Hclick];
    [rewrite Hname; change (negb (String.eqb "" "")) with false|rewrite Hclick];
    cbv iota;
    repeat match goal with
           | |- context [match ?x with Ok _ => _ | Raise _ => _ end] => destruct x
           | |- context [if ?b then _ else _] => destruct b
           end;
    cbn [w_trace snd];
    (eexists; split; [rewrite <- ?app_assoc; reflexivity|repeat constructor]).
Qed.

Lemma no_prediction_without_request_witness :
  ∃ evs, w_trace (main Cases.env_not_clicked Demo.world).2 = w_trace Demo.world ++ evs
         ∧ Forall (λ ev, pipeline_event ev = false) evs.
Proof.
  apply (no_prediction_without_request Cases.env_not_clicked Demo.world).
  right. reflexivity.
Defined.

(** ** An empty team table *)

(** Lines 142-146: when the player is found and the team table is empty,
    [main] shows "No team data available." and stops: no opponent is asked
    for and no later stage runs. *)
Theorem empty_team_table_halts (env : Env) (w : World) (m1 m2 m3 : ModelManager)
    (players_df all_teams : DataFrame) (player_id : PyVal) :
  let season := selected_season env in
  env_ModelManager env season = Ok m1 →
  env_mm_load_models env m1 = Ok m2 →
  env_mm_build_knowledge_graph env m2 = Ok m3 →
  env_player_name env ≠ "" →
  env_get_all_players env season = Ok players_df →
  df_empty players_df = false →
  env_get_player_id env (env_player_name env) players_df = Ok player_id →
  player_id ≠ PyNone →
  env_get_team_data env = Ok all_teams →
  df_empty all_teams = true →
  main env w
  = (Ok tt,
     mkWorld (w_heap w) (w_files w)
       (w_trace w
        ++ [EvSt st_title "NBA Player Performance Prediction";
            EvSt st_selectbox "Select Season:";
            EvCall c_ModelManager; EvCall c_load_models;
            EvCall c_build_knowledge_graph;
            EvSt st_text_input "Enter Player Name (e.g., LeBron James)";
            EvCall c_get_all_players; EvCall c_get_player_id; EvCall c_get_team_data;
            EvSt st_error "No team data available."])).
Proof.
  intros season H1 H2 H3 Hname Hroster Hsome Hid Hfound Hteams Hempty.
  unfold main, load_models, page. fold (selected_season env). fold season. run.
  rewrite H1, H2, H3, Hroster, Hsome, Hid.
  rewrite bool_decide_eq_false_2 by done. rewrite Hteams, Hempty.
  destruct (String.eqb_spec (env_player_name env) ""); [done|].
  cbn. by rewrite <- !app_assoc.
Qed.

Lemma empty_team_table_halts_witness :
  main Cases.env_no_teams Demo.world
  = (Ok tt,
     mkWorld Demo.heap ∅
       [EvSt st_title "NBA Player Performance Prediction";
        EvSt st_selectbox "Select Season:";
        EvCall c_ModelManager; EvCall c_load_models; EvCall c_build_knowledge_graph;
        EvSt st_text_input "Enter Player Name (e.g., LeBron James)";
        EvCall c_get_all_players; EvCall c_get_player_id; EvCall c_get_team_data;
        EvSt st_error "No team data available."]).
Proof.
  apply (empty_team_table_halts Cases.env_no_teams Demo.world Demo.manager Demo.manager
           Demo.manager Demo.frame Demo.empty_frame (PyInt 2544)); done.
Defined.

(** ** The handlers of the Predict flow *)

(** Lines 154 and 198-203: the Predict flow never raises an [Exception].
    When its body raises one, exactly one error is shown and the flow
    returns: "Model file missing: ..." for a missing file, "Input error: ..."
    for a [ValueError], "An unexpected error occurred: ..." for any other;
    when the body returns, nothing is added. *)
Theorem predict_flow_contains_exceptions (env : Env) (model_manager : ModelManager)
    (season player_name : string) (player_id : PyVal) (opponent : option string)
    (w : World) :
  let body := predict env model_manager season player_name player_id opponent in
  try_except body predict_handlers w
  = match body w with
    | (Ok _, w1) => (Ok tt, w1)
    | (Raise e, w1) =>
        if is_Exception e
        then (Ok tt, add_event (EvSt st_error (predict_error_text e)) w1)
        else (Raise e, w1)
    end.
Proof.
  intros body. unfold try_except, predict_handlers, predict_error_text.
  destruct (body w) as [[[]|[[] msg]] w1]; reflexivity.
Qed.

(** ** When the styling loop raises *)

Lemma assoc_restyle_None (m n : NodeId) (enc : option (string * string)) (net : Network) :
  assoc m (net_node_map (restyle n enc net)) = None ↔ assoc m (net_node_map net) = None.
Proof.
  rewrite assoc_restyle. destruct (assoc m (net_node_map net)); simpl; [|done].
  by case_bool_decide.
Qed.

(** One turn of the loop, in every case. *)
Lemma style_node_cases (net : Network) (n : NodeId) (r : nat) (w : World) :
  let enc := encoding (deref (w_heap w) r !! "type") in
  style_node net (n, r) w
  = match enc, assoc n (net_node_map net) with
    | Some _, None => (Raise (mkExc KeyError (repr_node n)), w)
    | _, _ => (Ok (restyle n enc net), w)
    end.
Proof.
  intros enc. subst enc. destruct (assoc n (net_node_map net)) as [o|] eqn:Hassoc.
  { rewrite style_node_run by (left; by rewrite Hassoc).
    by destruct (encoding (deref (w_heap w) r !! "type")). }
  destruct (encoding (deref (w_heap w) r !! "type")) as [cs|] eqn:Henc.
  2: { rewrite style_node_run by (by right). by rewrite Henc. }
  unfold style_node. rewrite bind_run. cbn [get_dict].
  destruct (deref (w_heap w) r !! "type") as [[| | | |t]|]; try done.
  cbn [default from_option id py_eq_str encoding styling_table find fst snd] in *.
  assert (Hraise : ∀ k v k' v',
    (get_node_setitem net n k v ≫= λ net0, get_node_setitem net0 n k' v') w
    = (Raise (mkExc KeyError (repr_node n)), w)).
  { intros k v k' v'. unfold get_node_setitem, get_node. rewrite bind_run, Hassoc.
    reflexivity. }
  repeat match goal with
         | |- context [String.eqb t ?s] => destruct (String.eqb t s); [by rewrite Hraise|]
         end.
  done.
Qed.

Lemma style_loop_cases (l : list (NodeId * nat)) (net : Network) (w : World) :
  let listed nr := is_Some (encoding (deref (w_heap w) nr.2 !! "type")) in
  match fold_each l style_node net w with
  | (Ok net', w') =>
      w' = w ∧ net' = restyle_all l (w_heap w) net
      ∧ Forall (λ nr, listed nr → is_Some (assoc nr.1 (net_node_map net))) l
  | (Raise e, w') =>
      w' = w
      ∧ ∃ nr, nr ∈ l ∧ e = mkExc KeyError (repr_node nr.1)
              ∧ listed nr ∧ assoc nr.1 (net_node_map net) = None
  end.
Proof.
  intros listed. revert net. induction l as [|[n r] l IH]; intros net; cbn [fold_each].
  { by repeat split. }
  rewrite bind_run, style_node_cases.
  destruct (encoding (deref (w_heap w) r !! "type")) as [cs|] eqn:Henc.
  - destruct (assoc n (net_node_map net)) as [o|] eqn:Hassoc.
    + specialize (IH (restyle n (Some cs) net)).
      destruct (fold_each l style_node (restyle n (Some cs) net) w) as [[net'|e] w'].
      * destruct IH as (-> & -> & Hall). split; [done|]. split.
        { unfold restyle_all. cbn [foldl fst snd]. by rewrite Henc. }
        constructor; [cbn; by rewrite Hassoc|].
        eapply Forall_impl; [exact Hall|]. intros [m r'] Hm Hlisted.
        specialize (Hm Hlisted). cbn [fst] in *.
        destruct (assoc m (net_node_map net)) eqn:Hnone; [done|].
        apply (assoc_restyle_None m n (Some cs)) in Hnone. rewrite Hnone in Hm.
        by destruct Hm.
      * destruct IH as (-> & nr & Hin & -> & Hlisted & Hnone). split; [done|].
        exists nr. split; [by apply elem_of_cons; right|]. split; [done|].
        split; [done|]. by apply (assoc_restyle_None nr.1 n (Some cs)).
    + split; [done|]. exists (n, r). split; [by apply elem_of_cons; left|].
      split; [done|]. split; [|done]. unfold listed. cbn [snd]. by rewrite Henc.
  - cbn [restyle]. specialize (IH net).
    destruct (fold_each l style_node net w) as [[net'|e] w'].
    + destruct IH as (-> & -> & Hall). split; [done|]. split.
      { unfold restyle_all. cbn [foldl fst snd]. by rewrite Henc. }
      constructor; [|done]. unfold listed. cbn [snd]. rewrite Henc. by intros [? ?].
    + destruct IH as (-> & nr & Hin & -> & Hlisted & Hnone). split; [done|].
      exists nr. split; [by apply elem_of_cons; right|]. done.
Qed.


(** The player is a listed type: a network without it makes the loop raise
    the [KeyError] of its identifier. *)
Example styling_without_the_player :
  style_nodes Demo.subgraph Cases.network_without_player Demo.world
  = (Raise (mkExc KeyError "2544"), Demo.world).
Proof. vm_compute. reflexivity. Qed.

(** ** The page that is shown *)

Lemma labelled_copy_trace (g : Graph) (w : World) :
  w_trace (labelled_copy g w).2 = w_trace w ++ [EvCall c_copy].
Proof.
  unfold labelled_copy. rewrite bind_run.
  destruct (nx_copy_run g w) as (a' & extra & -> & _). rewrite bind_run.
  set (g' := mkGraph _ a'). set (w1 := set_heap _ _).
  assert (Hloop : ∀ l w0, w_trace (for_each l (label_node g') w0).2 = w_trace w0).
  { induction l as [|[node data] l IH]; intros w0; cbn [for_each]; [done|].
    rewrite bind_run.
    assert (Hstep : w_trace (label_node g' (node, data) w0).2 = w_trace w0).
    { unfold label_node, dict_getitem, nodes_getitem, get_dict, dict_setitem. run.
      case_bool_decide; [destruct (deref (w_heap w0) data !! "name")|];
        by destruct (assoc node (g_node g')). }
    destruct (label_node g' (node, data) w0) as [[[]|e] w2]; cbn [snd] in *; [|done].
    by rewrite IH. }
  specialize (Hloop (nodes_data g') w1).
  destruct (for_each (nodes_data g') (label_node g') w1) as [[[]|e] w2]; exact Hloop.
Qed.

(** Lines 54-105: when the rendering returns, the page shown, at height
    550, is the one pyvis wrote for the network it built from the labelled
    copy and the styling loop restyled; it went through the temporary file
    and came back unchanged, and the steps ran in the order of the source. *)
Theorem shown_page_is_the_styled_network (env : Env) (g : Graph) (w w' : World) :
  render env g w = (Ok tt, w') →
  ∃ g' w1 net h path html,
    labelled_copy g w = (Ok g', w1)
    ∧ env_from_nx env g' (w_heap w1) = (Ok net, h)
    ∧ env_NamedTemporaryFile env (w_files w) ".html" = Ok path
    ∧ env_save_graph env (restyle_all (g_node g') h net) path = Ok html
    ∧ w_trace w'
      = w_trace w
        ++ [EvCall c_copy; EvCall c_Network; EvCall c_from_nx;
            EvCall c_NamedTemporaryFile; EvCall c_save_graph; EvCall c_open_read;
            EvCall c_os_remove; EvHtml html 550].
Proof.
  unfold render. rewrite bind_run.
  pose proof (same_files_labelled_copy g w) as Hfiles.
  pose proof (labelled_copy_trace g w) as Htrace.
  destruct (labelled_copy g w) as [[g'|e] w1]; [|done]. cbn [snd] in *.
  rewrite bind_run. unfold from_nx at 1. run.
  destruct (env_from_nx env g' (w_heap w1)) as [[net|e] h] eqn:Hnet; [|done].
  cbn [w_heap w_files w_trace].
  match goal with |- context [style_nodes g' net ?w2] =>
    pose proof (style_loop_cases (g_node g') net w2) as Hstyle;
    unfold style_nodes, nodes_data;
    destruct (fold_each (g_node g') style_node net w2) as [[net'|e] w3]; [|done]
  end.
  cbn zeta in Hstyle. destruct Hstyle as (-> & -> & _).
  unfold NamedTemporaryFile, save_graph, open_read, os_remove, components_html. run.
  rewrite Hfiles.
  destruct (env_NamedTemporaryFile env (w_files w) ".html") as [path|e] eqn:Hpath; [|done].
  cbn [w_heap w_files w_trace].
  destruct (env_save_graph env _ path) as [html|e] eqn:Hsave; [|done].
  cbn [w_heap w_files w_trace]. rewrite lookup_insert_eq.
  destruct (env_read_error env path); [done|].
  cbn [w_heap w_files w_trace]. rewrite lookup_insert_eq.
  destruct (env_remove_error env path); [done|].
  destruct (env_html_error env html); [done|].
  intros [= <-]. exists g', w1, net, h, path, html.
  split; [done|]. split; [done|]. split; [done|]. split; [exact Hsave|].
  cbn [w_trace]. rewrite Htrace. by rewrite <- !app_assoc.
Qed.

Lemma shown_page_is_the_styled_network_witness :
  ∃ html,
    env_save_graph Demo.env Demo.network "/tmp/tmpgraph.html" = Ok html
    ∧ w_trace (render Demo.env Demo.subgraph Demo.world).2
      = [EvCall c_copy; EvCall c_Network; EvCall c_from_nx;
         EvCall c_NamedTemporaryFile; EvCall c_save_graph; EvCall c_open_read;
         EvCall c_os_remove; EvHtml html 550].
Proof.
  destruct (shown_page_is_the_styled_network Demo.env Demo.subgraph Demo.world
              (render Demo.env Demo.subgraph Demo.world).2)
    as (g' & w1 & net & h & path & html & _ & _ & _ & _ & Htrace).
  - vm_compute. reflexivity.
  - exists Demo.page_html. split; [reflexivity|]. vm_compute. reflexivity.
Defined.

(** ** The files the renderer leaves alone *)



(** ** The Predict flow when every stage answers *)

Lemma relationships_add_event (edges : list (NodeId * NodeId * nat)) (w w0 : World) :
  w_heap w0 = w_heap w →
  relationships edges w0 = ((relationships edges w).1, w0).
Proof.
  intros Hheap. induction edges as [|[[u v] d] edges IH]; cbn [relationships]; [done|].
  rewrite !bind_run. unfold dict_getitem. rewrite !bind_run. cbn [get_dict]. rewrite Hheap.
  destruct (deref (w_heap w) d !! "relation") as [relation|]; [|done].
  cbn [mret M_ret]. rewrite !bind_run, IH.
  pose proof (relationships_run edges w) as Hrun.
  destruct (relationships edges w) as [[rels|e] w1]; cbn [fst]; [|done]. done.
Qed.

(** Lines 155-196: when every stage answers, the Predict flow calls them in
    the order of the source, hands the explanation generator the player, the
    opponent, the points with [bool(clf_pred)] as the threshold flag, and
    the context built from the extracted subgraph and the looked-up team,
    shows the two lines of the prediction and the explanation, and ends in
    [visualize_subgraph] on the extracted subgraph.  The line shown says
    "Yes" only for an output equal to 1, while the flag handed to the
    generator is set for every non-zero output. *)
Theorem prediction_flow_composes (env : Env) (model_manager : ModelManager)
    (season player_name : string) (player_id : PyVal) (opponent : option string)
    (X : nat) (reg_pred clf_pred player_team_abbr : PyVal) (points explanation : string)
    (subgraph : Graph) (rels : list Relationship) (w : World) :
  env_prepare_input env player_name opponent season = Ok X →
  env_predict_regression env X (regressor_pipeline model_manager) = Ok reg_pred →
  env_predict_classification env X (classifier_pipeline model_manager) = Ok clf_pred →
  format_2f reg_pred = Ok points →
  env_extract_context_subgraph env (KG model_manager) player_id opponent model_manager
  = Ok subgraph →
  env_get_player_team env model_manager player_id = Ok player_team_abbr →
  (relationships (edges_data subgraph) w).1 = Ok rels →
  env_generate_explanation env model_manager player_name opponent
    (mkPredictionResult reg_pred (truthy clf_pred))
    (mkContextInfo player_name (player_team_or_unknown player_team_abbr) opponent rels)
  = Ok explanation →
  predict env model_manager season player_name player_id opponent w
  = visualize_subgraph env subgraph
      (mkWorld (w_heap w) (w_files w)
         (w_trace w
          ++ [EvCall c_prepare_input; EvCall c_predict_regression;
              EvCall c_predict_classification;
              EvSt st_write ("**Predicted Points:** " +:+ points);
              EvSt st_write ("**Will Exceed Threshold:** "
                             +:+ (if py_eq_int clf_pred 1 then "Yes" else "No"));
              EvCall c_extract_context_subgraph; EvCall c_get_player_team;
              EvCall c_generate_explanation;
              EvSt st_subheader "Prediction Explanation";
              EvSt st_write explanation;
              EvSt st_subheader "Knowledge Graph Subgraph"]))
  ∧ (py_eq_int clf_pred 1 = true → truthy clf_pred = true)
  ∧ (∀ z, clf_pred = PyInt z → z ≠ 0 → z ≠ 1 →
          py_eq_int clf_pred 1 = false ∧ truthy clf_pred = true).
Proof.
  intros Hinput Hreg Hclf Hpoints Hsub Hteam Hrels Hexplain. split; [|split].
  - unfold predict, call.
    rewrite Hinput. run_ok. rewrite Hreg. run_ok. rewrite Hclf. run_ok.
    rewrite Hpoints. do 3 run_ok. rewrite Hsub. run_ok. rewrite Hteam. run_ok.
    unfold build_context_info.
    erewrite bind_ok.
    2: { erewrite bind_ok; [reflexivity|].
         rewrite (relationships_add_event _ w) by reflexivity. by rewrite Hrels. }
    rewrite Hexplain. do 4 run_ok.
    f_equal. unfold add_event. cbn [w_heap w_files w_trace]. f_equal.
    by rewrite <- !app_assoc.
  - destruct clf_pred as [|[]|z|f|s]; cbn; try done.
    + intros ->%Z.eqb_eq. done.
    + unfold float_eq_int. by destruct f as [s| | |s m e].
  - intros z -> Hz0 Hz1. cbn. split.
    + by apply Z.eqb_neq.
    + apply negb_true_iff. by apply Z.eqb_neq.
Qed.

Lemma prediction_flow_composes_witness :
  predict Demo.env Demo.manager "2023-24" "LeBron James" (PyInt 2544) (Some "BOS")
    Demo.world
  = visualize_subgraph Demo.env Demo.subgraph
      (mkWorld Demo.heap ∅
         [EvCall c_prepare_input; EvCall c_predict_regression;
          EvCall c_predict_classification;
          EvSt st_write "**Predicted Points:** 28.40";
          EvSt st_write "**Will Exceed Threshold:** Yes";
          EvCall c_extract_context_subgraph; EvCall c_get_player_team;
          EvCall c_generate_explanation;
          EvSt st_subheader "Prediction Explanation";
          EvSt st_write "He scores a lot.";
          EvSt st_subheader "Knowledge Graph Subgraph"]).
Proof.
  refine (proj1 (prediction_flow_composes Demo.env Demo.manager "2023-24" "LeBron James"
                   (PyInt 2544) (Some "BOS") 0%nat (PyFloat float_28_4) (PyInt 1)
                   (PyStr "LAL") "28.40" "He scores a lot." Demo.subgraph
                   [mkRelationship Demo.lebron Demo.lakers (PyStr "plays_for");
                    mkRelationship Demo.lebron Demo.celtics (PyStr "faces")]
                   Demo.world _ _ _ _ _ _ _ _));
    reflexivity.
Defined.
